(** * NutriScan backend (Backend/app.py): a shallow embedding and its properties

    The Flask application proxies barcode and name lookups to OpenFoodFacts and
    reshapes the upstream product into a sparse JSON document.  This file
    embeds the helpers [parse_ingredients], [classify_additives],
    [build_product_response] and the two handlers [scan_barcode] and
    [search_product], then states what the design document says about them.

    Python values are JSON values here: everything the program touches comes
    out of a JSON parser.  A Python [str] is a sequence of Unicode code points,
    a [dict] keeps its insertion order, and an operation applied to a value of
    the wrong type raises. *)

From Stdlib Require Import NArith ZArith Ascii String Floats.SpecFloat DecimalString.
From stdpp Require Import base decidable option list gmap strings.

Local Open Scope N_scope.
Set Warnings "-register-all".

(** ** Python strings *)

(** A [str] is a list of code points. *)
Abbreviation str := (list N).

(** An ASCII literal of the source, as a [str]. *)
Definition U (s : string) : str :=
  (fun a => N_of_ascii a) <$> list_ascii_of_string s.
Arguments U _%_string.

(** [str.isspace] for one code point (CPython's [Py_UNICODE_ISSPACE]): the
    characters [str.strip()] removes. *)
Definition is_space (c : N) : bool :=
  ((0x09 <=? c) && (c <=? 0x0D)) || ((0x1C <=? c) && (c <=? 0x20))
  || (c =? 0x85) || (c =? 0xA0) || (c =? 0x1680)
  || ((0x2000 <=? c) && (c <=? 0x200A))
  || (c =? 0x2028) || (c =? 0x2029) || (c =? 0x202F) || (c =? 0x205F)
  || (c =? 0x3000).

Fixpoint lstrip (s : str) : str :=
  match s with
  | c :: s' => if is_space c then lstrip s' else s
  | [] => []
  end.

Definition rstrip (s : str) : str := reverse (lstrip (reverse s)).

(** [s.strip()] *)
Definition strip (s : str) : str := rstrip (lstrip s).

(** [old] is a prefix of [s]. *)
Fixpoint starts_with (old s : str) : bool :=
  match old, s with
  | [], _ => true
  | a :: old', b :: s' => (a =? b) && starts_with old' s'
  | _ :: _, [] => false
  end.

(** The scan of [str.replace] for a non-empty [old]: left to right, each
    occurrence found is replaced and the scan resumes after it ([skip] counts
    the characters of the occurrence still to pass over). *)
Fixpoint replace_scan (old new : str) (skip : nat) (s : str) : str :=
  match s with
  | [] => []
  | c :: s' =>
      match skip with
      | S k => replace_scan old new k s'
      | O =>
          if starts_with old s
          then new ++ replace_scan old new (pred (length old)) s'
          else c :: replace_scan old new O s'
      end
  end.

(** [s.replace(old, new)]: every non-overlapping occurrence, not only a
    leading one.  An empty [old] matches between all characters. *)
Definition str_replace (old new s : str) : str :=
  match old with
  | [] => new ++ mjoin ((fun c => c :: new) <$> s)
  | _ :: _ => replace_scan old new O s
  end.

(** [sub in s] for strings. *)
Fixpoint str_contains (sub s : str) : bool :=
  starts_with sub s ||
  match s with
  | [] => false
  | _ :: s' => str_contains sub s'
  end.

(** [re.split] on a pattern that matches exactly one character of a class:
    the fragments between separators, empty ones included. *)
Fixpoint re_split (is_sep : N -> bool) (s : str) : list str :=
  match s with
  | [] => [[]]
  | c :: s' =>
      if is_sep c then [] :: re_split is_sep s'
      else match re_split is_sep s' with
           | p :: ps => (c :: p) :: ps
           | [] => [[c]]
           end
  end.

(** ASCII case conversion of one code point. *)
Definition ascii_lower (c : N) : N :=
  if (0x41 <=? c) && (c <=? 0x5A) then c + 32 else c.
Definition ascii_upper (c : N) : N :=
  if (0x61 <=? c) && (c <=? 0x7A) then c - 32 else c.
Definition is_ascii (c : N) : bool := c <? 128.

(** First code points of the ten-digit runs of Unicode category Nd (decimal
    digits), Unicode 14.0, the table behind [\d] of a [str] pattern. *)
Definition decimal_runs : list N :=
  [ 0x30; 0x660; 0x6F0; 0x7C0; 0x966; 0x9E6; 0xA66; 0xAE6; 0xB66; 0xBE6;
    0xC66; 0xCE6; 0xD66; 0xDE6; 0xE50; 0xED0; 0xF20; 0x1040; 0x1090; 0x17E0;
    0x1810; 0x1946; 0x19D0; 0x1A80; 0x1A90; 0x1B50; 0x1BB0; 0x1C40; 0x1C50;
    0xA620; 0xA8D0; 0xA900; 0xA9D0; 0xA9F0; 0xAA50; 0xABF0; 0xFF10; 0x104A0;
    0x10D30; 0x11066; 0x110F0; 0x11136; 0x111D0; 0x112F0; 0x11450; 0x114D0;
    0x11650; 0x116C0; 0x11730; 0x118E0; 0x11950; 0x11C50; 0x11D50; 0x11DA0;
    0x16A60; 0x16AC0; 0x16B50; 0x1E140; 0x1E2F0; 0x1E950; 0x1FBF0 ].

(** [\d] in a Python 3 [str] pattern without [re.ASCII]: any decimal digit of
    any script, the mathematical digits U+1D7CE..U+1D7FF included. *)
Definition is_decimal (c : N) : bool :=
  existsb (fun a => (a <=? c) && (c <? a + 10)) decimal_runs
  || ((0x1D7CE <=? c) && (c <=? 0x1D7FF)).

(** The digits 0-9 of ASCII. *)
Definition is_ascii_digit (c : N) : bool := (0x30 <=? c) && (c <=? 0x39).

Fixpoint take_while {A} (p : A -> bool) (l : list A) : list A :=
  match l with
  | x :: l' => if p x then x :: take_while p l' else []
  | [] => []
  end.

(** [re.match(r"^\d{4,14}$", s)] as a truth value.  The greedy run of [\d]
    must stop on its own after 4 to 14 digits; [$] then holds at the end of
    the string or just before a final newline. *)
Definition barcode_re_match (s : str) : bool :=
  let digits := take_while is_decimal s in
  (4 <=? length digits)%nat && (length digits <=? 14)%nat &&
  match drop (length digits) s with
  | [] => true
  | [c] => c =? 0x0A
  | _ => false
  end.

(** [str(n)] for an [int]. *)
Definition decimal (n : Z) : str := U (NilEmpty.string_of_int (Z.to_int n)).


(** ** Python values *)

(** What [json.loads] builds: [None], [bool], [int], [float], [str], [list]
    and [dict].  A [dict] is kept in insertion order, its keys distinct. *)
Inductive json :=
| JNull
| JBool (b : bool)
| JInt (n : Z)
| JFloat (f : spec_float)
| JStr (s : str)
| JList (l : list json)
| JObj (o : list (str * json)).

Abbreviation dict := (list (str * json)).

(** The exceptions the program can meet outside [requests]. *)
Inductive py_exn :=
| TypeError
| AttributeError
| KeyError
| IndexError
| JSONDecodeError.

(** A computation that returns or raises. *)
Inductive result (A : Type) :=
| Ok (a : A)
| Raise (e : py_exn).
Arguments Ok {A} a.
Arguments Raise {A} e.

#[global] Instance result_ret : MRet result := fun A a => Ok a.
#[global] Instance result_bind : MBind result := fun A B f m =>
  match m with
  | Ok a => f a
  | Raise e => Raise e
  end.

(** [bool(v)], the test of [if v] and [not v]. *)
Definition truthy (v : json) : bool :=
  match v with
  | JNull => false
  | JBool b => b
  | JInt n => negb (n =? 0)%Z
  | JFloat (S754_zero _) => false
  | JFloat _ => true
  | JStr s => negb (bool_decide (s = []))
  | JList [] => false
  | JList (_ :: _) => true
  | JObj [] => false
  | JObj (_ :: _) => true
  end.

(** The value of a float equals the integer [n] (Python compares [int] and
    [float] by value). *)
Definition float_eq_Z (f : spec_float) (n : Z) : bool :=
  match f with
  | S754_zero _ => (n =? 0)%Z
  | S754_finite s m e =>
      let v := if s then Z.neg m else Z.pos m in
      if (0 <=? e)%Z then (v * 2 ^ e =? n)%Z else (v =? n * 2 ^ (- e))%Z
  | S754_infinity _ | S754_nan => false
  end.

(** [v == n] for an [int] literal [n]: [True] is 1, [False] is 0, [1.0] is 1;
    a value of another type is never equal to a number. *)
Definition py_eq_int (v : json) (n : Z) : bool :=
  match v with
  | JInt m => (m =? n)%Z
  | JBool b => ((if b then 1 else 0) =? n)%Z
  | JFloat f => float_eq_Z f n
  | JNull | JStr _ | JList _ | JObj _ => false
  end.

Fixpoint dict_lookup (k : str) (d : dict) : option json :=
  match d with
  | [] => None
  | (k', v) :: d' => if bool_decide (k' = k) then Some v else dict_lookup k d'
  end.

(** [d[k] = v]: an existing key keeps its place, a new one goes last. *)
Fixpoint dict_set (d : dict) (k : str) (v : json) : dict :=
  match d with
  | [] => [(k, v)]
  | (k', v') :: d' =>
      if bool_decide (k' = k) then (k, v) :: d' else (k', v') :: dict_set d' k v
  end.

(** [v.get(k, default)]: only a [dict] has the method. *)
Definition py_get (v : json) (k : str) (default : json) : result json :=
  match v with
  | JObj o => Ok (from_option id default (dict_lookup k o))
  | _ => Raise AttributeError
  end.

(** [for x in v]: the elements of a list, the characters of a string, the
    keys of a dict; nothing else a JSON parser builds is iterable. *)
Definition py_iter (v : json) : result (list json) :=
  match v with
  | JList l => Ok l
  | JStr s => Ok ((fun c => JStr [c]) <$> s)
  | JObj o => Ok ((fun kv => JStr kv.1) <$> o)
  | JNull | JBool _ | JInt _ | JFloat _ => Raise TypeError
  end.

(** [k in v] for a string [k]: a key of a dict, an element of a list, a
    substring of a string. *)
Definition py_contains (v : json) (k : str) : result bool :=
  match v with
  | JObj o => Ok (bool_decide (is_Some (dict_lookup k o)))
  | JList l =>
      Ok (existsb (fun x => match x with
                            | JStr s => bool_decide (s = k)
                            | _ => false
                            end) l)
  | JStr s => Ok (str_contains k s)
  | JNull | JBool _ | JInt _ | JFloat _ => Raise TypeError
  end.

(** [v[k]] for a string [k]. *)
Definition py_getitem (v : json) (k : str) : result json :=
  match v with
  | JObj o =>
      match dict_lookup k o with
      | Some x => Ok x
      | None => Raise KeyError
      end
  | _ => Raise TypeError
  end.

(** [v[0]].  The keys of a parsed JSON object are strings, so [0] is never
    one of them. *)
Definition py_first (v : json) : result json :=
  match v with
  | JList (x :: _) => Ok x
  | JStr (c :: _) => Ok (JStr [c])
  | JList [] | JStr [] => Raise IndexError
  | JObj _ => Raise KeyError
  | JNull | JBool _ | JInt _ | JFloat _ => Raise TypeError
  end.

(** The parts of the Python runtime whose tables are too large to spell out:
    Unicode case conversion and the text [str()] gives a value.  What is
    fixed here is what they do on ASCII text and on strings and integers. *)
Class PyRuntime : Type := {
  str_lower : str -> str;
  str_upper : str -> str;
  py_str : json -> str;
  str_lower_ascii s : forallb is_ascii s = true -> str_lower s = ascii_lower <$> s;
  str_upper_ascii s : forallb is_ascii s = true -> str_upper s = ascii_upper <$> s;
  py_str_str s : py_str (JStr s) = s;
  py_str_int n : py_str (JInt n) = decimal n;
}.

(** A runtime that is CPython's on ASCII text and on [str], [int], [bool] and
    [None] arguments of [str()]; it serves to run the program on such inputs. *)
Definition ascii_runtime : PyRuntime := {|
  str_lower s := ascii_lower <$> s;
  str_upper s := ascii_upper <$> s;
  py_str v :=
    match v with
    | JStr s => s
    | JInt n => decimal n
    | JBool true => U "True"
    | JBool false => U "False"
    | JNull => U "None"
    | JFloat _ | JList _ | JObj _ => []
    end;
  str_lower_ascii _ _ := eq_refl;
  str_upper_ascii _ _ := eq_refl;
  py_str_str _ := eq_refl;
  py_str_int _ := eq_refl;
|}.

(** ** 2. Helper: clean and parse the ingredients text *)

Definition is_ingredient_separator (c : N) : bool :=
  (c =? 0x2C) || (c =? 0x3B) || (c =? 0x2022).

(** [parse_ingredients(raw_text)] *)
Definition parse_ingredients (raw_text : json) : result (list str) :=
  if negb (truthy raw_text) then Ok []
  else
    match raw_text with
    | JStr s =>
        let parts := re_split is_ingredient_separator s in
        let cleaned := strip <$> filter (fun item => strip item <> []) parts in
        Ok cleaned
    | _ => Raise TypeError
    end.

(** ** 3. Helper: separate additives and preservatives *)

Definition PRESERVATIVE_CODES : gset str :=
  list_to_set (U <$>
    [ "e200"; "e201"; "e202"; "e203";
      "e210"; "e211"; "e212"; "e213";
      "e214"; "e215"; "e216"; "e217"; "e218"; "e219";
      "e220"; "e221"; "e222"; "e223"; "e224"; "e225"; "e226"; "e227"; "e228";
      "e230"; "e231"; "e232"; "e233";
      "e234"; "e235";
      "e239";
      "e242";
      "e249"; "e250"; "e251"; "e252";
      "e260"; "e261"; "e262"; "e263";
      "e270";
      "e280"; "e281"; "e282"; "e283";
      "e284"; "e285";
      "e290" ]%string).

(** A [for] loop over [items] whose body updates [st] or raises. *)
Fixpoint for_in {S : Type} (items : list json) (body : S -> json -> result S)
    (st : S) : result S :=
  match items with
  | [] => Ok st
  | x :: rest => st' ← body st x; for_in rest body st'
  end.

Section Helpers.
Context `{PyRuntime}.

(** [tag.replace("en:", "").strip()] *)
Definition clean_tag (tag : str) : str := strip (str_replace (U "en:") [] tag).

(** The body of the loop of [classify_additives]. *)
Definition classify_tag (acc : list str * list str) (tag : json)
    : result (list str * list str) :=
  let '(additives, preservatives) := acc in
  match tag with
  | JStr t =>
      let name := clean_tag t in
      let code := str_lower name in
      if bool_decide (code ∈ PRESERVATIVE_CODES)
      then Ok (additives, preservatives ++ [str_upper name])
      else Ok (additives ++ [str_upper name], preservatives)
  | _ => Raise AttributeError
  end.

(** [classify_additives(additive_tags)] *)
Definition classify_additives (additive_tags : json)
    : result (list str * list str) :=
  if negb (truthy additive_tags) then Ok ([], [])
  else
    tags ← py_iter additive_tags;
    for_in tags classify_tag ([], []).

(** ** 4. Helper: build a structured response *)

(** [a.replace("en:", "")] for each [a] of the allergen list. *)
Definition strip_allergen (a : json) : result json :=
  match a with
  | JStr t => Ok (JStr (str_replace (U "en:") [] t))
  | _ => Raise AttributeError
  end.

Definition is_None (v : json) : bool :=
  match v with
  | JNull => true
  | _ => false
  end.

(** A list of strings as the JSON value [jsonify] serialises. *)
Definition str_list (l : list str) : json := JList (JStr <$> l).

(** [build_product_response(product)] *)
Definition build_product_response (product : json) : result dict :=
  product_name ← py_get product (U "product_name") (JStr []);
  image_url ← py_get product (U "image_url") (JStr []);
  ingredients_raw ← py_get product (U "ingredients_text") (JStr []);
  additive_tags ← py_get product (U "additives_tags") (JList []);
  categories ← py_get product (U "categories") (JStr []);
  nutriscore ← py_get product (U "nutriscore_score") JNull;
  allergens_tags ← py_get product (U "allergens_tags") (JList []);
  ingredients_analysis ← py_get product (U "ingredients_analysis_tags") (JList []);
  ingredients ← parse_ingredients ingredients_raw;
  '(additives, preservatives) ← classify_additives additive_tags;
  let response : dict := [] in
  let response :=
    if truthy product_name
    then dict_set response (U "product_name") product_name else response in
  let response :=
    if truthy image_url
    then dict_set response (U "image") image_url else response in
  let response :=
    if truthy (str_list ingredients)
    then dict_set response (U "ingredients") (str_list ingredients) else response in
  let response :=
    if truthy (str_list additives)
    then dict_set response (U "additives") (str_list additives) else response in
  let response :=
    if truthy (str_list preservatives)
    then dict_set response (U "preservatives") (str_list preservatives)
    else response in
  let response :=
    if truthy categories
    then dict_set response (U "categories") categories else response in
  let response :=
    if negb (is_None nutriscore)
    then dict_set response (U "nutriscore_score") nutriscore else response in
  response ←
    (if truthy allergens_tags
     then items ← py_iter allergens_tags;
          stripped ← mapM strip_allergen items;
          Ok (dict_set response (U "allergens_tags") (JList stripped))
     else Ok response);
  let response :=
    if truthy ingredients_analysis
    then dict_set response (U "ingredients_analysis_tags") ingredients_analysis
    else response in
  Ok response.

End Helpers.

(** ** The upstream call *)

(** The classes of [requests.exceptions]; all derive from
    [RequestException]. *)
Inductive requests_exception :=
| RequestException
| HTTPError
| ConnectionError
| ProxyError
| SSLError
| Timeout
| ConnectTimeout
| ReadTimeout
| URLRequired
| TooManyRedirects
| MissingSchema
| InvalidSchema
| InvalidURL
| InvalidHeader
| InvalidProxyURL
| ChunkedEncodingError
| ContentDecodingError
| StreamConsumedError
| RetryError
| UnrewindableBodyError.

(** [isinstance(e, requests.exceptions.Timeout)] *)
Definition is_Timeout (c : requests_exception) : bool :=
  match c with
  | Timeout | ConnectTimeout | ReadTimeout => true
  | _ => false
  end.

(** [isinstance(e, requests.exceptions.ConnectionError)]: a connect timeout
    derives from both [ConnectionError] and [Timeout]. *)
Definition is_ConnectionError (c : requests_exception) : bool :=
  match c with
  | ConnectionError | ProxyError | SSLError | ConnectTimeout => true
  | _ => false
  end.

(** The arguments of one [requests.get]. *)
Record http_request := {
  rq_url : str;
  rq_params : dict;
  rq_headers : list (str * str);
  rq_timeout : Z;
}.

(** What the program reads of an upstream reply: the HTTP status, the text
    of the [HTTPError] that [raise_for_status] would raise for it, and the
    value of [resp.json()], if the body is JSON at all. *)
Record http_response := {
  status_code : Z;
  error_text : str;
  json_body : option json;
}.

(** [requests.get] raises (with the text [str(e)]) or returns a reply. *)
Inductive get_outcome :=
| GetRaises (c : requests_exception) (msg : str)
| GetReturns (resp : http_response).

(** A handler: it answers, lets an exception escape, or issues a GET and goes
    on with its outcome. *)
Inductive prog :=
| Respond (status : Z) (body : json)
| Unhandled (e : py_exn)
| HttpGet (rq : http_request) (k : get_outcome -> prog).

(** What the client gets once a handler has run. *)
Inductive final :=
| Responded (status : Z) (body : json)
| Crashed (e : py_exn).

(** Run a handler against an upstream [net]: the GETs issued, in order, and
    the end of the request. *)
Fixpoint run (net : http_request -> get_outcome) (p : prog)
    : list http_request * final :=
  match p with
  | Respond status body => ([], Responded status body)
  | Unhandled e => ([], Crashed e)
  | HttpGet rq k =>
      let '(calls, f) := run net (k (net rq)) in (rq :: calls, f)
  end.

(** The end of a request that issues no GET. *)
Definition answer (p : prog) : option final :=
  match p with
  | Respond status body => Some (Responded status body)
  | Unhandled e => Some (Crashed e)
  | HttpGet _ _ => None
  end.

(** Go on with the value of [r], or let its exception escape. *)
Definition or_escape {A} (r : result A) (k : A -> prog) : prog :=
  match r with
  | Ok a => k a
  | Raise e => Unhandled e
  end.

(** [resp.raise_for_status()]: an [HTTPError] for a 4xx or 5xx status. *)
Definition raise_for_status (resp : http_response)
    : option (requests_exception * str) :=
  if (400 <=? status_code resp)%Z && (status_code resp <? 600)%Z
  then Some (HTTPError, error_text resp) else None.

(** The [try] block of both handlers: [requests.get] followed by
    [resp.raise_for_status()]. *)
Definition try_get (out : get_outcome)
    : requests_exception * str + http_response :=
  match out with
  | GetRaises c msg => inl (c, msg)
  | GetReturns resp =>
      match raise_for_status resp with
      | Some e => inl e
      | None => inr resp
      end
  end.

(** [resp.json()] *)
Definition resp_json (resp : http_response) : result json :=
  match json_body resp with
  | Some v => Ok v
  | None => Raise JSONDecodeError
  end.

(** [jsonify({"error": msg})] *)
Definition error_body (msg : str) : json := JObj [(U "error", JStr msg)].

Definition PRODUCT_API_URL (barcode : str) : str :=
  U "https://world.openfoodfacts.org/api/v0/product/" ++ barcode ++ U ".json".
Definition SEARCH_API_URL : str :=
  U "https://world.openfoodfacts.org/cgi/search.pl".

(** ** 5. and 6. The endpoints *)

Section Handlers.
Context `{PyRuntime}.
(** The optional key of the environment, [""] when unset. *)
Variable API_KEY : str.

(** Sections 5c of [scan_barcode]: what follows the [try] block. *)
Definition scan_barcode_parse (resp : http_response) : prog :=
  or_escape (resp_json resp) (fun api_data =>
  or_escape (py_get api_data (U "status") JNull) (fun status =>
  if negb (py_eq_int status 1)
  then Respond 404 (error_body (U "Product not found"))
  else
    or_escape (py_get api_data (U "product") (JObj [])) (fun product =>
    or_escape (build_product_response product) (fun result =>
    if negb (truthy (JObj result))
    then Respond 404 (error_body (U "Product found but contains no usable data"))
    else Respond 200 (JObj result))))).

(** The [except] clauses of [scan_barcode], tried in order. *)
Definition scan_barcode_except (c : requests_exception) (msg : str) : prog :=
  if is_Timeout c
  then Respond 504 (error_body (U "External API timed out. Please try again."))
  else if is_ConnectionError c
  then Respond 502
         (error_body (U "Unable to reach external API. Check your connection."))
  else Respond 500 (error_body (U "API request failed: " ++ msg)).

(** The GET of [scan_barcode]: the barcode in the path, the bearer header if
    a key is configured, ten seconds. *)
Definition scan_barcode_request (barcode : str) : http_request :=
  let url := PRODUCT_API_URL barcode in
  let headers :=
    if truthy (JStr API_KEY)
    then [(U "Authorization", U "Bearer " ++ API_KEY)] else [] in
  {| rq_url := url; rq_params := []; rq_headers := headers; rq_timeout := 10 |}.

(** Sections 5b (after the GET returned or raised) and 5c. *)
Definition scan_barcode_after (out : get_outcome) : prog :=
  match try_get out with
  | inl (c, msg) => scan_barcode_except c msg
  | inr resp => scan_barcode_parse resp
  end.

(** [scan_barcode()], [data] being [request.get_json(silent=True)]. *)
Definition scan_barcode (data : json) : prog :=
  if negb (truthy data)
  then Respond 400 (error_body (U "Missing 'barcode' field in request body"))
  else
    or_escape (py_contains data (U "barcode")) (fun present =>
    if negb present
    then Respond 400 (error_body (U "Missing 'barcode' field in request body"))
    else
      or_escape (py_getitem data (U "barcode")) (fun value =>
      let barcode := strip (py_str value) in
      if negb (truthy (JStr barcode))
      then Respond 400 (error_body (U "Barcode cannot be empty"))
      else if negb (barcode_re_match barcode)
      then Respond 400
             (error_body (U "Invalid barcode format. Must be 4-14 digits."))
      else HttpGet (scan_barcode_request barcode) scan_barcode_after)).

(** What follows the [try] block of [search_product]. *)
Definition search_product_parse (resp : http_response) : prog :=
  or_escape (resp_json resp) (fun search_data =>
  or_escape (py_get search_data (U "products") (JList [])) (fun products =>
  if negb (truthy products)
  then Respond 404 (error_body (U "Product not found"))
  else
    or_escape (py_first products) (fun first =>
    or_escape (build_product_response first) (fun result =>
    Respond 200 (JObj result))))).

(** The GET of [search_product]: a simple search, JSON, one result. *)
Definition search_product_request (name : str) : http_request :=
  {| rq_url := SEARCH_API_URL;
     rq_params := [ (U "search_terms", JStr name);
                    (U "search_simple", JInt 1);
                    (U "json", JInt 1);
                    (U "page_size", JInt 1) ];
     rq_headers := [];
     rq_timeout := 10 |}.

(** After the GET of [search_product] returned or raised. *)
Definition search_product_after (out : get_outcome) : prog :=
  match try_get out with
  | inl (_, msg) => Respond 500 (error_body (U "Search API failed: " ++ msg))
  | inr resp => search_product_parse resp
  end.

(** [search_product()], [data] being [request.get_json(silent=True)]. *)
Definition search_product (data : json) : prog :=
  if negb (truthy data)
  then Respond 400 (error_body (U "Missing 'name' field in request body"))
  else
    or_escape (py_contains data (U "name")) (fun present =>
    if negb present
    then Respond 400 (error_body (U "Missing 'name' field in request body"))
    else
      or_escape (py_getitem data (U "name")) (fun value =>
      let name := strip (py_str value) in
      if negb (truthy (JStr name))
      then Respond 400 (error_body (U "Product name cannot be empty"))
      else HttpGet (search_product_request name) search_product_after)).

End Handlers.


(** ** Notions used in the statements *)

(** The tags of [v], once cleaned, are ASCII text: the case tables of the
    runtime beyond ASCII play no part in classifying them. *)
Definition ascii_tags (v : json) : bool :=
  match py_iter v with
  | Ok items =>
      forallb (fun x => match x with
                        | JStr t => forallb is_ascii (clean_tag t)
                        | _ => true
                        end) items
  | Raise _ => true
  end.

(** The additive tags of [product] are ASCII text once cleaned. *)
Definition ascii_product (product : json) : bool :=
  match py_get product (U "additives_tags") (JList []) with
  | Ok v => ascii_tags v
  | Raise _ => true
  end.

(** An entry the builder may emit: a non-null score, or a non-empty value. *)
Definition emitted (kv : str * json) : Prop :=
  (kv.1 = U "nutriscore_score" /\ kv.2 <> JNull) \/
  (kv.1 <> U "nutriscore_score" /\ truthy kv.2 = true /\
   kv.2 <> JStr [] /\ kv.2 <> JList [] /\ kv.2 <> JNull).

(** ** The design document's wording, for comparison *)

(** "ASCII digits only, length 4-14". *)
Definition ascii_barcode (s : str) : bool :=
  (4 <=? length s)%nat && (length s <=? 14)%nat && forallb is_ascii_digit s.

(** "Strip a literal [en:] prefix if present": only a leading one. *)
Definition strip_en_prefix (tag : str) : str :=
  if starts_with (U "en:") tag then drop 3 tag else tag.

(** What [\d{4,14}] reads as on a string that ends with no newline: 4 to 14
    decimal digits of any script. *)
Definition unicode_barcode (s : str) : bool :=
  (4 <=? length s)%nat && (length s <=? 14)%nat && forallb is_decimal s.

(** Fragments put back around their separators. *)
Fixpoint join_around (parts : list str) (seps : list N) : str :=
  match parts, seps with
  | p :: parts', c :: seps' => p ++ c :: join_around parts' seps'
  | p :: _, [] => p
  | [], _ => []
  end.

(** ** Further notions used in the statements *)

(** [sep.join(l)] *)
Definition str_join (sep : str) (l : list str) : str :=
  match l with
  | [] => []
  | e :: rest => e ++ mjoin ((fun x => sep ++ x) <$> rest)
  end.

(** [isinstance(v, str)] *)
Definition is_str (v : json) : bool :=
  match v with
  | JStr _ => true
  | _ => false
  end.

(** A lower-case letter of ASCII. *)
Definition is_ascii_lowercase (c : N) : bool := (0x61 <=? c) && (c <=? 0x7A).

(** [o.get(k, d)] on a mapping. *)
Definition dict_get (o : dict) (k : str) (d : json) : json :=
  default d (dict_lookup k o).

(** One conditional assignment [if c: response[k] = v]. *)
Definition assign (r : dict) (a : bool * str * json) : dict :=
  if a.1.1 then dict_set r a.1.2 a.2 else r.

(** The entry an assignment leaves in a mapping that lacks its key. *)
Definition opt (c : bool) (k : str) (v : json) : dict :=
  if c then [(k, v)] else [].

(** [if v: response[k] = v], in a mapping that lacks [k]. *)
Definition field (k : str) (v : json) : dict := opt (truthy v) k v.

(** The keys [build_product_response] reads. *)
Definition read_keys : list str :=
  [ U "product_name"; U "image_url"; U "ingredients_text"; U "additives_tags";
    U "categories"; U "nutriscore_score"; U "allergens_tags";
    U "ingredients_analysis_tags" ].

(** The keys [build_product_response] writes, in the order it writes them. *)
Definition response_keys : list str :=
  [ U "product_name"; U "image"; U "ingredients"; U "additives";
    U "preservatives"; U "categories"; U "nutriscore_score";
    U "allergens_tags"; U "ingredients_analysis_tags" ].

(** Falsy, or something [for] can iterate whose elements are all strings. *)
Definition strings_or_empty (v : json) : Prop :=
  truthy v = false \/
  exists items, py_iter v = Ok items /\ forallb is_str items = true.

(** [k in v] holds and [v] is not a mapping: [v[k]] then raises. *)
Definition holds_key_outside_mapping (v : json) (k : str) : bool :=
  match v with
  | JList l =>
      existsb (fun x => match x with
                        | JStr s => bool_decide (s = k)
                        | _ => false
                        end) l
  | JStr s => str_contains k s
  | _ => false
  end.

(** A number or [True]: truthy, and [k in v] raises. *)
Definition is_truthy_scalar (v : json) : bool :=
  match v with
  | JBool _ | JInt _ | JFloat _ => truthy v
  | _ => false
  end.

(** The answer of a handler is well formed for the status codes [codes]: a
    200 carries a mapping without an [error] key, any other status carries
    [{"error": msg}]. *)
Definition well_formed (codes : list Z) (f : final) : Prop :=
  match f with
  | Crashed _ => True
  | Responded status body =>
      status ∈ codes /\
      ((status = 200%Z /\
        exists result, body = JObj result /\ dict_lookup (U "error") result = None) \/
       (status <> 200%Z /\ exists msg, body = error_body msg))
  end.

(** * Properties *)

(** ** Strings *)

Lemma lstrip_spec (s : str) :
  exists a, s = a ++ lstrip s /\ forallb is_space a = true /\
            (forall c t, lstrip s = c :: t -> is_space c = false).
Proof.
  induction s as [|c s IH]; simpl.
  - exists []. repeat split; intros; discriminate.
  - destruct (is_space c) eqn:Hc.
    + destruct IH as (a & Hs & Ha & Hh). exists (c :: a). simpl.
      rewrite Hc, Ha. repeat split; [congruence | assumption].
    + exists []. repeat split. intros c' t [= -> _]. assumption.
Qed.

Lemma lstrip_head (c : N) (t : str) :
  is_space c = false -> lstrip (c :: t) = c :: t.
Proof. intros Hc. simpl. now rewrite Hc. Qed.

Lemma lstrip_idem (s : str) : lstrip (lstrip s) = lstrip s.
Proof.
  induction s as [|c s IH]; simpl; [reflexivity|].
  destruct (is_space c) eqn:Hc; [assumption|]. simpl. now rewrite Hc.
Qed.

Lemma lstrip_snoc (l : str) (c : N) :
  is_space c = false -> lstrip (l ++ [c]) = lstrip l ++ [c].
Proof.
  intros Hc. induction l as [|x l IH]; simpl.
  - now rewrite Hc.
  - destruct (is_space x); [assumption | reflexivity].
Qed.

Lemma rstrip_idem (s : str) : rstrip (rstrip s) = rstrip s.
Proof. unfold rstrip. now rewrite reverse_involutive, lstrip_idem. Qed.

Lemma rstrip_cons (c : N) (t : str) :
  is_space c = false -> rstrip (c :: t) = c :: rstrip t.
Proof.
  intros Hc. unfold rstrip. rewrite reverse_cons, lstrip_snoc by assumption.
  now rewrite reverse_app.
Qed.

Lemma rstrip_spec (s : str) :
  exists b, s = rstrip s ++ b /\ forallb is_space b = true /\
            (forall t c, rstrip s = t ++ [c] -> is_space c = false).
Proof.
  destruct (lstrip_spec (reverse s)) as (a & Hs & Ha & Hh).
  exists (reverse a). unfold rstrip. repeat split.
  - rewrite <- reverse_app, <- Hs. now rewrite reverse_involutive.
  - rewrite forallb_forall in *. intros x Hx. apply Ha.
    apply list_elem_of_In. apply list_elem_of_In in Hx.
    now rewrite elem_of_reverse in Hx.
  - intros t c Ht. apply (Hh c (reverse t)).
    rewrite <- (reverse_involutive (lstrip (reverse s))), Ht.
    now rewrite reverse_app.
Qed.

(** [strip] removes a run of white space at each end and nothing else, and
    what is left neither begins nor ends with white space. *)
Lemma strip_spec (s : str) :
  exists a b, s = a ++ strip s ++ b /\
    forallb is_space a = true /\ forallb is_space b = true /\
    (forall c t, strip s = c :: t -> is_space c = false) /\
    (forall t c, strip s = t ++ [c] -> is_space c = false).
Proof.
  destruct (lstrip_spec s) as (a & Hs & Ha & Hh).
  destruct (rstrip_spec (lstrip s)) as (b & Hr & Hb & Hl).
  exists a, b. unfold strip. repeat split; try assumption.
  - now rewrite <- Hr.
  - intros c t Hc. destruct (lstrip s) as [|x l] eqn:Hx; [discriminate|].
    pose proof (Hh x l eq_refl) as Hsp.
    rewrite rstrip_cons in Hc by assumption. now injection Hc as -> _.
Qed.

Lemma strip_idem (s : str) : strip (strip s) = strip s.
Proof.
  unfold strip. destruct (lstrip s) as [|x l] eqn:Hx; [reflexivity|].
  destruct (lstrip_spec s) as (a & _ & _ & Hh).
  pose proof (Hh x l Hx) as Hsp.
  rewrite rstrip_cons by assumption. rewrite lstrip_head by assumption.
  rewrite <- rstrip_cons by assumption. apply rstrip_idem.
Qed.

Lemma re_split_not_nil (is_sep : N -> bool) (s : str) : re_split is_sep s <> [].
Proof.
  induction s as [|c s IH]; simpl; [discriminate|].
  destruct (is_sep c); [discriminate|].
  destruct (re_split is_sep s); [contradiction | discriminate].
Qed.

(** [re_split] cuts at every separator and nowhere else: the fragments hold
    no separator and, put back around the separators, give the input. *)
Lemma re_split_spec (is_sep : N -> bool) (s : str) :
  exists seps,
    join_around (re_split is_sep s) seps = s /\
    length (re_split is_sep s) = S (length seps) /\
    Forall (fun c => is_sep c = true) seps /\
    Forall (Forall (fun c => is_sep c = false)) (re_split is_sep s).
Proof.
  induction s as [|c s (seps & Hj & Hl & Hs & Hp)]; simpl.
  - exists []. repeat split; auto.
  - destruct (is_sep c) eqn:Hc.
    + exists (c :: seps). simpl. repeat split; auto; congruence.
    + destruct (re_split is_sep s) as [|p ps]; [discriminate|].
      exists seps. inversion Hp; subst. repeat split; auto.
      destruct ps, seps; simpl in *; congruence.
Qed.

Lemma replace_scan_absent (old new s : str) :
  str_contains old s = false -> replace_scan old new O s = s.
Proof.
  induction s as [|c s IH]; [reflexivity|].
  simpl str_contains. rewrite orb_false_iff. intros [Hp Hc].
  simpl replace_scan. rewrite Hp. now rewrite IH.
Qed.

(** On a tag that holds [en:] nowhere but in front, [replace] does what
    stripping the prefix would do. *)
Lemma str_replace_en_prefix_only (tag : str) :
  str_contains (U "en:") (strip_en_prefix tag) = false ->
  str_replace (U "en:") [] tag = strip_en_prefix tag.
Proof.
  unfold strip_en_prefix.
  destruct (starts_with (U "en:") tag) eqn:Hp; intros Hc.
  - destruct tag as [|a [|b [|c rest]]];
      try (cbn in Hp; rewrite ?andb_false_r in Hp; discriminate Hp).
    change (str_replace (U "en:") [] (a :: b :: c :: rest))
      with (replace_scan (U "en:") [] O (a :: b :: c :: rest)).
    cbn [replace_scan]. rewrite Hp. cbn.
    now apply replace_scan_absent.
  - now apply replace_scan_absent.
Qed.

Lemma take_while_span {A} (p : A -> bool) (l : list A) :
  l = take_while p l ++ drop (length (take_while p l)) l /\
  forallb p (take_while p l) = true /\
  (forall c r, drop (length (take_while p l)) l = c :: r -> p c = false).
Proof.
  induction l as [|x l (Hl & Hp & Hr)]; simpl.
  - repeat split; intros; discriminate.
  - destruct (p x) eqn:Hx; simpl.
    + rewrite Hx, Hp. repeat split; [congruence | assumption].
    + repeat split. intros c r [= -> _]. assumption.
Qed.

(** On a string that does not end with a newline, the pattern of the
    barcode check accepts exactly 4 to 14 decimal digits. *)
Lemma barcode_re_match_no_newline (s : str) :
  (forall t, s <> t ++ [0x0A]) -> barcode_re_match s = unicode_barcode s.
Proof.
  intros Hn. unfold barcode_re_match, unicode_barcode.
  destruct (take_while_span is_decimal s) as (Hs & Hp & Hr).
  destruct (drop (length (take_while is_decimal s)) s) as [|c r] eqn:Hd.
  - rewrite app_nil_r in Hs. rewrite <- Hs in Hp |- *. now rewrite Hp.
  - pose proof (Hr c r eq_refl) as Hc.
    assert (forallb is_decimal s = false) as ->.
    { rewrite Hs, forallb_app. simpl. rewrite Hc. now rewrite andb_false_r. }
    rewrite !andb_false_r.
    destruct r; [|now rewrite andb_false_r].
    destruct (N.eqb_spec c 0x0A) as [->|]; [|now rewrite andb_false_r].
    now destruct (Hn (take_while is_decimal s)).
Qed.

Lemma strip_no_newline (s t : str) : strip s <> t ++ [0x0A].
Proof.
  intros Heq. destruct (strip_spec s) as (_ & _ & _ & _ & _ & _ & Hl).
  now pose proof (Hl t _ Heq).
Qed.

Lemma barcode_re_match_strip (s : str) :
  barcode_re_match (strip s) = unicode_barcode (strip s).
Proof. apply barcode_re_match_no_newline. intros t. apply strip_no_newline. Qed.

Lemma is_ascii_digit_decimal (c : N) :
  is_ascii_digit c = true -> is_decimal c = true.
Proof.
  unfold is_ascii_digit, is_decimal. rewrite andb_true_iff, !N.leb_le.
  intros [Hlo Hhi]. apply orb_true_iff. left. simpl.
  apply orb_true_iff. left. apply andb_true_iff.
  rewrite N.leb_le, N.ltb_lt. lia.
Qed.

Lemma ascii_barcode_unicode (s : str) :
  ascii_barcode s = true -> unicode_barcode s = true.
Proof.
  unfold ascii_barcode, unicode_barcode. rewrite !andb_true_iff.
  intros [Hlen Hd]. split; [assumption|].
  rewrite forallb_forall in *. intros c Hc. now apply is_ascii_digit_decimal, Hd.
Qed.

(** ** The ingredient parser *)

Lemma parse_ingredients_str (s : str) :
  parse_ingredients (JStr s) =
  Ok (strip <$> filter (fun item => strip item <> [])
                        (re_split is_ingredient_separator s)).
Proof.
  unfold parse_ingredients. destruct s as [|c s]; reflexivity.
Qed.

Lemma is_ingredient_separator_spec (c : N) :
  is_ingredient_separator c = true <-> c = 0x2C \/ c = 0x3B \/ c = 0x2022.
Proof.
  unfold is_ingredient_separator.
  rewrite !orb_true_iff, !N.eqb_eq. tauto.
Qed.

Lemma parse_ingredients_entries (s : str) :
  exists out,
    parse_ingredients (JStr s) = Ok out /\
    Forall (fun e => e <> [] /\ strip e = e) out.
Proof.
  eexists. split; [apply parse_ingredients_str|].
  apply Forall_fmap, Forall_forall. intros p Hp.
  apply list_elem_of_filter in Hp as [Hne _]. simpl.
  split; [assumption | apply strip_idem].
Qed.

(** C5: [parse_ingredients] cuts its input at every comma, semicolon and
    bullet and nowhere else, trims each fragment, drops those that are empty
    once trimmed, keeps the others in order and with their repetitions; an
    empty or missing input gives the empty list. *)
Theorem C5_parse_ingredients :
  (forall s : str, exists parts seps,
      join_around parts seps = s /\
      length parts = S (length seps) /\
      Forall (fun c => c = 0x2C \/ c = 0x3B \/ c = 0x2022) seps /\
      Forall (Forall (fun c => ~ (c = 0x2C \/ c = 0x3B \/ c = 0x2022))) parts /\
      parse_ingredients (JStr s) =
        Ok (strip <$> filter (fun item => strip item <> []) parts)) /\
  (forall s : str, exists out,
      parse_ingredients (JStr s) = Ok out /\
      Forall (fun e => e <> [] /\ strip e = e) out) /\
  parse_ingredients (JStr []) = Ok [] /\
  parse_ingredients JNull = Ok [] /\
  parse_ingredients (JStr (U "Sugar, Salt;Water" ++ [0x2022] ++ U "Milk")) =
    Ok [U "Sugar"; U "Salt"; U "Water"; U "Milk"] /\
  parse_ingredients (JStr (U "  , ,")) = Ok [] /\
  parse_ingredients (JStr (U "salt, Salt,salt")) =
    Ok [U "salt"; U "Salt"; U "salt"].
Proof.
  split; [|split; [|repeat split; vm_compute; reflexivity]].
  - intros s.
    destruct (re_split_spec is_ingredient_separator s) as (seps & Hj & Hl & Hs & Hp).
    exists (re_split is_ingredient_separator s), seps.
    repeat split; try assumption.
    + eapply Forall_impl; [exact Hs|]. intros c Hc.
      now apply is_ingredient_separator_spec.
    + eapply Forall_impl; [exact Hp|]. intros p Hq.
      eapply Forall_impl; [exact Hq|]. intros c Hc Hd. simpl in Hc.
      apply is_ingredient_separator_spec in Hd. congruence.
    + apply parse_ingredients_str.
  - apply parse_ingredients_entries.
Qed.

(** ** The additive classifier *)

Lemma for_in_ext {S : Type} (items : list json)
    (f g : S -> json -> result S) (st : S) :
  Forall (fun x => forall acc, f acc x = g acc x) items ->
  for_in items f st = for_in items g st.
Proof.
  intros Hfg. revert st. induction Hfg as [|x items Hx _ IH]; intros st.
  - reflexivity.
  - simpl. rewrite Hx. destruct (g st x); simpl; [apply IH | reflexivity].
Qed.

Section Classifier.
Context {R : PyRuntime}.

Lemma classify_tag_ascii (acc : list str * list str) (x : json) :
  match x with
  | JStr t => forallb is_ascii (clean_tag t) = true
  | _ => True
  end ->
  classify_tag acc x = @classify_tag ascii_runtime acc x.
Proof.
  destruct x; try reflexivity. intros Ha. unfold classify_tag.
  rewrite str_lower_ascii, str_upper_ascii by assumption.
  destruct acc. reflexivity.
Qed.

Lemma classify_additives_ascii (v : json) :
  ascii_tags v = true ->
  classify_additives v = @classify_additives ascii_runtime v.
Proof.
  unfold ascii_tags, classify_additives. intros Ha.
  destruct (negb (truthy v)); [reflexivity|].
  destruct (py_iter v) as [items|e]; [|reflexivity]. simpl.
  apply for_in_ext. rewrite forallb_forall in Ha. apply Forall_forall.
  intros x Hx acc. apply classify_tag_ascii.
  apply list_elem_of_In, Ha in Hx. destruct x; auto.
Qed.

Lemma build_product_response_ascii (product : json) :
  ascii_product product = true ->
  build_product_response product = @build_product_response ascii_runtime product.
Proof.
  unfold ascii_product, build_product_response. intros Ha.
  destruct product; try reflexivity.
  cbn [py_get mbind result_bind] in *.
  now rewrite classify_additives_ascii.
Qed.

(** The loop over a list of strings: each name is appended to one list. *)
Lemma for_in_classify (tags : list str) (additives preservatives : list str) :
  for_in (JStr <$> tags) classify_tag (additives, preservatives) =
  Ok (additives ++
        (str_upper <$> filter (fun n => str_lower n ∉ PRESERVATIVE_CODES)
                              (clean_tag <$> tags)),
      preservatives ++
        (str_upper <$> filter (fun n => str_lower n ∈ PRESERVATIVE_CODES)
                              (clean_tag <$> tags))).
Proof.
  revert additives preservatives.
  induction tags as [|t tags IH]; intros additives preservatives.
  - simpl. now rewrite !app_nil_r.
  - rewrite !fmap_cons. simpl for_in. unfold classify_tag at 1.
    case_bool_decide as Hc; simpl; rewrite IH.
    + rewrite (filter_cons_False (fun n => str_lower n ∉ _)) by auto.
      rewrite (filter_cons_True (fun n => str_lower n ∈ _)) by auto.
      now rewrite fmap_cons, <- app_assoc.
    + rewrite (filter_cons_True (fun n => str_lower n ∉ _)) by auto.
      rewrite (filter_cons_False (fun n => str_lower n ∈ _)) by auto.
      now rewrite fmap_cons, <- app_assoc.
Qed.

Lemma classify_additives_list (tags : list str) :
  classify_additives (JList (JStr <$> tags)) =
  Ok (str_upper <$> filter (fun n => str_lower n ∉ PRESERVATIVE_CODES)
                           (clean_tag <$> tags),
      str_upper <$> filter (fun n => str_lower n ∈ PRESERVATIVE_CODES)
                           (clean_tag <$> tags)).
Proof.
  destruct tags as [|t tags]; [reflexivity|].
  unfold classify_additives. rewrite fmap_cons.
  cbn [truthy negb py_iter]. change (for_in ?l ?f ?st = ?r) with (for_in l f st = r).
  exact (for_in_classify (t :: tags) [] []).
Qed.

Lemma ascii_lower_upper (c : N) : ascii_lower (ascii_upper c) = ascii_lower c.
Proof.
  unfold ascii_lower, ascii_upper.
  destruct (N.leb_spec 0x61 c), (N.leb_spec c 0x7A); cbn [andb];
    repeat match goal with
           | |- context [?a <=? ?b] => destruct (N.leb_spec a b)
           end; cbn [andb]; lia.
Qed.

(** On ASCII names, equal upper-cased forms have equal lower-cased forms. *)
Lemma upper_eq_lower_eq (n1 n2 : str) :
  forallb is_ascii n1 = true -> forallb is_ascii n2 = true ->
  str_upper n1 = str_upper n2 -> str_lower n1 = str_lower n2.
Proof.
  intros H1 H2. rewrite !str_upper_ascii, !str_lower_ascii by assumption.
  intros Hu. apply (f_equal (fmap ascii_lower)) in Hu.
  rewrite <- !list_fmap_compose in Hu.
  erewrite (list_fmap_ext _ ascii_lower n1), (list_fmap_ext _ ascii_lower n2)
    in Hu; [exact Hu | |]; intros; apply ascii_lower_upper.
Qed.

(** C6: every tag's cleaned, upper-cased name goes to exactly one of the two
    lists, to [preservatives] when its lower-cased form is in
    [PRESERVATIVE_CODES] and to [additives] otherwise, in input order; on
    ASCII tags no name is found in both lists. *)
Theorem C6_classify_additives :
  (forall tags : list str, exists additives preservatives,
      classify_additives (JList (JStr <$> tags)) = Ok (additives, preservatives) /\
      preservatives =
        str_upper <$> filter (fun n => str_lower n ∈ PRESERVATIVE_CODES)
                             (clean_tag <$> tags) /\
      additives =
        str_upper <$> filter (fun n => str_lower n ∉ PRESERVATIVE_CODES)
                             (clean_tag <$> tags) /\
      (length additives + length preservatives = length tags)%nat /\
      (Forall (fun t => forallb is_ascii (clean_tag t) = true) tags ->
       forall name, name ∈ additives -> name ∉ preservatives)) /\
  classify_additives (JList [JStr (U "en:e330"); JStr (U "en:e211")]) =
    Ok ([U "E330"], [U "E211"]) /\
  classify_additives (JList []) = Ok ([], []) /\
  classify_additives JNull = Ok ([], []).
Proof.
  split; [|split; [|split; reflexivity]].
  - intros tags. do 2 eexists. split; [apply classify_additives_list|].
    split; [reflexivity|]. split; [reflexivity|]. split.
    + rewrite !length_fmap, Nat.add_comm, <- length_app.
      rewrite <- (length_fmap clean_tag tags).
      apply Permutation_length, filter_app_complement.
    + intros Hascii name Ha Hp.
      apply list_elem_of_fmap in Ha as (n1 & -> & Hn1).
      apply list_elem_of_fmap in Hp as (n2 & Heq & Hn2).
      apply list_elem_of_filter in Hn1 as [Hout Hn1].
      apply list_elem_of_filter in Hn2 as [Hin Hn2].
      apply list_elem_of_fmap in Hn1 as (t1 & -> & Ht1).
      apply list_elem_of_fmap in Hn2 as (t2 & -> & Ht2).
      rewrite Forall_forall in Hascii.
      apply Hout. rewrite (upper_eq_lower_eq _ (clean_tag t2)); auto.
  - rewrite classify_additives_ascii by (vm_compute; reflexivity).
    vm_compute. reflexivity.
Qed.

Lemma empty_not_preservative : [] ∉ PRESERVATIVE_CODES.
Proof.
  intros Hin. apply (bool_decide_pack _) in Hin. vm_compute in Hin. exact Hin.
Qed.

(** A name that goes to [preservatives] is not empty before upper-casing. *)
Lemma preservative_names_nonempty (tags : list str) :
  Forall (fun n => n <> [])
         (filter (fun n => str_lower n ∈ PRESERVATIVE_CODES) (clean_tag <$> tags)).
Proof.
  apply Forall_forall. intros n Hn. apply list_elem_of_filter in Hn as [Hc _].
  intros ->. rewrite (str_lower_ascii [] eq_refl) in Hc.
  exact (empty_not_preservative Hc).
Qed.

Lemma preservatives_nonempty_ascii (tags additives preservatives : list str) :
  Forall (fun t => forallb is_ascii (clean_tag t) = true) tags ->
  classify_additives (JList (JStr <$> tags)) = Ok (additives, preservatives) ->
  Forall (fun x => x <> []) preservatives.
Proof.
  intros Hascii. rewrite classify_additives_list. intros [= _ <-].
  apply Forall_fmap, Forall_forall. intros n Hn. simpl.
  pose proof (preservative_names_nonempty tags) as Hne.
  rewrite Forall_forall in Hne. specialize (Hne n Hn).
  apply list_elem_of_filter in Hn as [_ Hn].
  apply list_elem_of_fmap in Hn as (t & -> & Ht).
  rewrite Forall_forall in Hascii.
  rewrite str_upper_ascii by now apply Hascii.
  destruct (clean_tag t); [contradiction | discriminate].
Qed.

(** C10, as the code has it: the tag ["en:"] and a tag of white space both
    leave the empty name, which is appended to [additives]; a list of such
    names is not empty, so [build_product_response] emits it.  Ingredient
    entries are never empty, and neither are the names that go to
    [preservatives]: the empty name is not in [PRESERVATIVE_CODES], so on
    ASCII tags no preservative entry is empty. *)
Theorem C10_empty_additive_name :
  classify_additives (JList [JStr (U "en:")]) = Ok ([[]], []) /\
  classify_additives (JList [JStr (U "   ")]) = Ok ([[]], []) /\
  (forall s : str, exists ingredients,
     parse_ingredients (JStr s) = Ok ingredients /\
     Forall (fun e => e <> []) ingredients) /\
  build_product_response
    (JObj [(U "additives_tags", JList [JStr (U "en:"); JStr (U "   ")])]) =
    Ok [(U "additives", JList [JStr []; JStr []])] /\
  (forall tags : list str, exists additives preservatives,
     classify_additives (JList (JStr <$> tags)) = Ok (additives, preservatives) /\
     preservatives =
       str_upper <$> filter (fun n => str_lower n ∈ PRESERVATIVE_CODES)
                            (clean_tag <$> tags) /\
     Forall (fun n => n <> [])
            (filter (fun n => str_lower n ∈ PRESERVATIVE_CODES)
                    (clean_tag <$> tags)) /\
     (Forall (fun t => forallb is_ascii (clean_tag t) = true) tags ->
      Forall (fun x => x <> []) preservatives)).
Proof.
  split; [|split; [|split; [|split]]].
  - rewrite classify_additives_ascii by (vm_compute; reflexivity).
    vm_compute. reflexivity.
  - rewrite classify_additives_ascii by (vm_compute; reflexivity).
    vm_compute. reflexivity.
  - intros s. destruct (parse_ingredients_entries s) as (out & Hp & Hall).
    exists out. split; [assumption|].
    eapply Forall_impl; [exact Hall|]. now intros e [He _].
  - rewrite build_product_response_ascii by (vm_compute; reflexivity).
    vm_compute. reflexivity.
  - intros tags. do 2 eexists. split; [apply classify_additives_list|].
    split; [reflexivity|]. split; [apply preservative_names_nonempty|].
    intros Hascii.
    exact (preservatives_nonempty_ascii tags _ _ Hascii
             (classify_additives_list tags)).
Qed.

(** C1, where the code departs from it: [replace] removes every [en:], so
    the tag [en:gluten:wheat] loses the one inside [gluten:] too, in the
    classifier and in the allergen list. *)
Theorem C1_en_removed_everywhere :
  strip_en_prefix (U "en:gluten:wheat") = U "gluten:wheat" /\
  clean_tag (U "en:gluten:wheat") = U "glutwheat" /\
  classify_additives (JList [JStr (U "en:gluten:wheat")]) =
    Ok ([U "GLUTWHEAT"], []) /\
  build_product_response
    (JObj [(U "allergens_tags", JList [JStr (U "en:gluten:wheat")])]) =
    Ok [(U "allergens_tags", JList [JStr (U "glutwheat")])].
Proof.
  split; [reflexivity|]. split; [reflexivity|]. split.
  - rewrite classify_additives_ascii by (vm_compute; reflexivity).
    vm_compute. reflexivity.
  - rewrite build_product_response_ascii by (vm_compute; reflexivity).
    vm_compute. reflexivity.
Qed.

End Classifier.

(** No list of ASCII tags, under any runtime, leaves an empty name in
    [preservatives]. *)
Lemma C10_empty_preservative_counterexample :
  ~ exists (R : PyRuntime) (tags : list str) (additives preservatives : list str),
      Forall (fun t => forallb is_ascii (clean_tag t) = true) tags /\
      classify_additives (JList (JStr <$> tags)) = Ok (additives, preservatives) /\
      [] ∈ preservatives.
Proof.
  intros (R & tags & additives & preservatives & Hascii & Hcl & Hin).
  pose proof (preservatives_nonempty_ascii tags _ _ Hascii Hcl) as Hne.
  rewrite Forall_forall in Hne. now apply (Hne [] Hin).
Qed.

(** ** The handlers *)

Lemma run_answer (net : http_request -> get_outcome) (p : prog) (f : final) :
  answer p = Some f -> run net p = ([], f).
Proof. destruct p; simpl; intros [= <-]; reflexivity. Qed.

Lemma or_escape_answers {A} (r : result A) (k : A -> prog) :
  (forall a, is_Some (answer (k a))) -> is_Some (answer (or_escape r k)).
Proof. intros Hk. destruct r; simpl; [apply Hk | eauto]. Qed.

Lemma if_answers (b : bool) (p q : prog) :
  is_Some (answer p) -> is_Some (answer q) ->
  is_Some (answer (if b then p else q)).
Proof. now destruct b. Qed.

Section HandlerFacts.
Context {R : PyRuntime}.
Variable API_KEY : str.

(** Once the GET is over, no handler issues another. *)
Lemma scan_barcode_after_answers (out : get_outcome) :
  is_Some (answer (scan_barcode_after out)).
Proof.
  unfold scan_barcode_after, scan_barcode_except, scan_barcode_parse.
  destruct (try_get out) as [[c msg]|resp].
  - repeat apply if_answers; simpl; eauto.
  - repeat (first [apply or_escape_answers; intros ? | apply if_answers]);
      simpl; eauto.
Qed.

Lemma search_product_after_answers (out : get_outcome) :
  is_Some (answer (search_product_after out)).
Proof.
  unfold search_product_after, search_product_parse.
  destruct (try_get out) as [[c msg]|resp]; [simpl; eauto|].
  repeat (first [apply or_escape_answers; intros ? | apply if_answers]);
    simpl; eauto.
Qed.

Lemma run_scan_get (net : http_request -> get_outcome) (barcode : str) :
  exists fin,
    answer (scan_barcode_after (net (scan_barcode_request API_KEY barcode)))
      = Some fin /\
    run net (HttpGet (scan_barcode_request API_KEY barcode) scan_barcode_after)
      = ([scan_barcode_request API_KEY barcode], fin).
Proof.
  destruct (scan_barcode_after_answers
              (net (scan_barcode_request API_KEY barcode))) as [fin Hf].
  exists fin. split; [assumption|].
  simpl. now rewrite (run_answer _ _ _ Hf).
Qed.

Lemma run_search_get (net : http_request -> get_outcome) (name : str) :
  exists fin,
    answer (search_product_after (net (search_product_request name)))
      = Some fin /\
    run net (HttpGet (search_product_request name) search_product_after)
      = ([search_product_request name], fin).
Proof.
  destruct (search_product_after_answers
              (net (search_product_request name))) as [fin Hf].
  exists fin. split; [assumption|].
  simpl. now rewrite (run_answer _ _ _ Hf).
Qed.

(** [scan_barcode] on a JSON object that has the key. *)
Lemma scan_barcode_obj (o : dict) (v : json) :
  dict_lookup (U "barcode") o = Some v ->
  scan_barcode API_KEY (JObj o) =
    if negb (truthy (JStr (strip (py_str v))))
    then Respond 400 (error_body (U "Barcode cannot be empty"))
    else if negb (barcode_re_match (strip (py_str v)))
    then Respond 400
           (error_body (U "Invalid barcode format. Must be 4-14 digits."))
    else HttpGet (scan_barcode_request API_KEY (strip (py_str v)))
                 scan_barcode_after.
Proof.
  intros Hv. unfold scan_barcode.
  destruct o as [|kv o]; [discriminate|].
  cbn [truthy negb py_contains py_getitem or_escape].
  rewrite Hv. rewrite bool_decide_eq_true_2 by eauto. reflexivity.
Qed.

(** Every run of [scan_barcode] ends without a GET, or issues exactly the
    one GET for a string the format check accepted. *)
Lemma scan_barcode_shape (data : json) :
  is_Some (answer (scan_barcode API_KEY data)) \/
  exists barcode,
    barcode_re_match barcode = true /\
    scan_barcode API_KEY data =
      HttpGet (scan_barcode_request API_KEY barcode) scan_barcode_after.
Proof.
  unfold scan_barcode.
  destruct (negb (truthy data)); [left; simpl; eauto|].
  destruct (py_contains data (U "barcode")) as [[|]|e];
    cbn [or_escape negb]; [|left; simpl; eauto..].
  destruct (py_getitem data (U "barcode")) as [v|e];
    cbn [or_escape]; [|left; simpl; eauto].
  destruct (negb (truthy (JStr (strip (py_str v))))); [left; simpl; eauto|].
  destruct (barcode_re_match (strip (py_str v))) eqn:Hm;
    cbn [negb]; [|left; simpl; eauto].
  right. eauto.
Qed.

Lemma run_scan_barcode_inv (net : http_request -> get_outcome) (data : json)
    (rq : http_request) (calls : list http_request) (fin : final) :
  run net (scan_barcode API_KEY data) = (rq :: calls, fin) ->
  calls = [] /\ answer (scan_barcode_after (net rq)) = Some fin.
Proof.
  intros Hrun. destruct (scan_barcode_shape data) as [[f Hf]|(b & _ & Hb)].
  - rewrite (run_answer _ _ _ Hf) in Hrun. discriminate.
  - rewrite Hb in Hrun.
    destruct (run_scan_get net b) as (fin' & Hf & Hr).
    rewrite Hr in Hrun. now injection Hrun as <- <- <-.
Qed.

Lemma scan_barcode_rejects (o : dict) (v : json) :
  dict_lookup (U "barcode") o = Some v ->
  barcode_re_match (strip (py_str v)) = false ->
  exists msg, scan_barcode API_KEY (JObj o) = Respond 400 (error_body msg).
Proof.
  intros Hv Hm. rewrite (scan_barcode_obj o v Hv), Hm.
  destruct (negb (truthy (JStr (strip (py_str v))))); simpl; eauto.
Qed.

Lemma scan_barcode_accepts (o : dict) (v : json) :
  dict_lookup (U "barcode") o = Some v ->
  barcode_re_match (strip (py_str v)) = true ->
  scan_barcode API_KEY (JObj o) =
    HttpGet (scan_barcode_request API_KEY (strip (py_str v))) scan_barcode_after.
Proof.
  intros Hv Hm. rewrite (scan_barcode_obj o v Hv), Hm.
  destruct (strip (py_str v)); [discriminate Hm | reflexivity].
Qed.

Lemma scan_barcode_after_http_error (resp : http_response) :
  (400 <= status_code resp < 600)%Z ->
  scan_barcode_after (GetReturns resp) =
    Respond 500 (error_body (U "API request failed: " ++ error_text resp)).
Proof.
  intros [Hlo Hhi]. unfold scan_barcode_after, try_get, raise_for_status.
  apply Z.leb_le in Hlo. apply Z.ltb_lt in Hhi. now rewrite Hlo, Hhi.
Qed.

Lemma raise_for_status_None (resp : http_response) :
  (status_code resp < 400 \/ 600 <= status_code resp)%Z ->
  raise_for_status resp = None.
Proof.
  intros Hs. unfold raise_for_status.
  destruct (Z.leb_spec 400 (status_code resp));
    destruct (Z.ltb_spec (status_code resp) 600); simpl; try reflexivity; lia.
Qed.

Lemma scan_barcode_after_not_found (resp : http_response) (env : dict) :
  raise_for_status resp = None ->
  json_body resp = Some (JObj env) ->
  py_eq_int (from_option id JNull (dict_lookup (U "status") env)) 1 = false ->
  scan_barcode_after (GetReturns resp) =
    Respond 404 (error_body (U "Product not found")).
Proof.
  intros Hs Hb He. unfold scan_barcode_after, try_get. rewrite Hs.
  unfold scan_barcode_parse, resp_json. rewrite Hb.
  cbn [or_escape py_get]. now rewrite He.
Qed.

(** C8: a transport failure of the GET of [scan_barcode] is answered 504 when
    it is a timeout, 502 when it is a connection failure that is not a
    timeout, and 500 otherwise; the handler then stops. *)
Theorem C8_transport_failures (net : http_request -> get_outcome)
    (data : json) (rq : http_request) (calls : list http_request)
    (fin : final) (c : requests_exception) (msg : str) :
  run net (scan_barcode API_KEY data) = (rq :: calls, fin) ->
  net rq = GetRaises c msg ->
  (is_Timeout c = true ->
     fin = Responded 504
             (error_body (U "External API timed out. Please try again."))) /\
  (is_Timeout c = false -> is_ConnectionError c = true ->
     fin = Responded 502
             (error_body
                (U "Unable to reach external API. Check your connection."))) /\
  (is_Timeout c = false -> is_ConnectionError c = false ->
     fin = Responded 500 (error_body (U "API request failed: " ++ msg))) /\
  calls = [].
Proof.
  intros Hrun Hnet. apply run_scan_barcode_inv in Hrun as [-> Hf].
  rewrite Hnet in Hf. unfold scan_barcode_after, try_get, scan_barcode_except in Hf.
  repeat split.
  - intros Ht. rewrite Ht in Hf. now injection Hf as <-.
  - intros Ht Hc. rewrite Ht, Hc in Hf. now injection Hf as <-.
  - intros Ht Hc. rewrite Ht, Hc in Hf. now injection Hf as <-.
Qed.

(** C2, as the code has it: when the upstream reply carries no HTTP error
    status and its JSON envelope has a [status] other than 1, the answer is
    404 "Product not found"; a reply with a 4xx or 5xx status is answered 500
    by [raise_for_status] before the envelope is read. *)
Theorem C2_status_flag (net : http_request -> get_outcome)
    (data : json) (rq : http_request) (calls : list http_request)
    (fin : final) (resp : http_response) (env : dict) :
  run net (scan_barcode API_KEY data) = (rq :: calls, fin) ->
  net rq = GetReturns resp ->
  json_body resp = Some (JObj env) ->
  py_eq_int (from_option id JNull (dict_lookup (U "status") env)) 1 = false ->
  ((status_code resp < 400 \/ 600 <= status_code resp)%Z ->
     fin = Responded 404 (error_body (U "Product not found"))) /\
  ((400 <= status_code resp < 600)%Z ->
     fin = Responded 500
             (error_body (U "API request failed: " ++ error_text resp))).
Proof.
  intros Hrun Hnet Hb He. apply run_scan_barcode_inv in Hrun as [-> Hf].
  rewrite Hnet in Hf. split; intros Hs.
  - rewrite (scan_barcode_after_not_found resp env) in Hf;
      auto using raise_for_status_None.
    now injection Hf as <-.
  - rewrite scan_barcode_after_http_error in Hf by assumption.
    now injection Hf as <-.
Qed.

(** C4, as the code has it: a request whose barcode, once coerced to a string
    and trimmed, is not 4 to 14 decimal digits is answered 400 and no GET is
    issued; 4 to 14 decimal digits pass and the GET follows.  The digits are
    those of Unicode, of which the ASCII digits are a part. *)
Theorem C4_barcode_validation (net : http_request -> get_outcome)
    (o : dict) (v : json) :
  dict_lookup (U "barcode") o = Some v ->
  (unicode_barcode (strip (py_str v)) = false ->
     exists msg,
       run net (scan_barcode API_KEY (JObj o)) =
         ([], Responded 400 (error_body msg))) /\
  (unicode_barcode (strip (py_str v)) = true ->
     exists fin,
       run net (scan_barcode API_KEY (JObj o)) =
         ([scan_barcode_request API_KEY (strip (py_str v))], fin)) /\
  (ascii_barcode (strip (py_str v)) = true ->
     unicode_barcode (strip (py_str v)) = true).
Proof.
  intros Hv. rewrite <- barcode_re_match_strip. repeat split.
  - intros Hm. destruct (scan_barcode_rejects o v Hv Hm) as [msg ->].
    now exists msg.
  - intros Hm. rewrite (scan_barcode_accepts o v Hv Hm).
    destruct (run_scan_get net (strip (py_str v))) as (fin & _ & Hr). eauto.
  - rewrite barcode_re_match_strip. apply ascii_barcode_unicode.
Qed.

Lemma search_product_accepts (o : dict) (v : json) :
  dict_lookup (U "name") o = Some v ->
  strip (py_str v) <> [] ->
  search_product (JObj o) =
    HttpGet (search_product_request (strip (py_str v))) search_product_after.
Proof.
  intros Hv Hn. unfold search_product.
  destruct o as [|kv o]; [discriminate|].
  cbn [truthy negb py_contains py_getitem or_escape].
  rewrite Hv. rewrite bool_decide_eq_true_2 by eauto.
  cbn [negb or_escape truthy]. now rewrite bool_decide_eq_false_2.
Qed.

Lemma search_product_after_json (resp : http_response) (sd : dict) :
  raise_for_status resp = None ->
  json_body resp = Some (JObj sd) ->
  search_product_after (GetReturns resp) =
    if negb (truthy (from_option id (JList []) (dict_lookup (U "products") sd)))
    then Respond 404 (error_body (U "Product not found"))
    else
      or_escape (py_first (from_option id (JList [])
                                       (dict_lookup (U "products") sd)))
        (fun first =>
           or_escape (build_product_response first)
             (fun result => Respond 200 (JObj result))).
Proof.
  intros Hs Hb. unfold search_product_after, try_get. rewrite Hs.
  unfold search_product_parse, resp_json. rewrite Hb. reflexivity.
Qed.

(** C9: a valid name lookup issues one GET, a simple search with JSON output
    and page size one; a reply whose [products] is missing or empty is
    answered 404 "Product not found", and otherwise the 200 response is built
    from the first element of the list. *)
Theorem C9_search_first_result (net : http_request -> get_outcome)
    (o : dict) (v : json) :
  dict_lookup (U "name") o = Some v ->
  strip (py_str v) <> [] ->
  exists fin,
    run net (search_product (JObj o)) =
      ([search_product_request (strip (py_str v))], fin) /\
    rq_params (search_product_request (strip (py_str v))) =
      [ (U "search_terms", JStr (strip (py_str v)));
        (U "search_simple", JInt 1); (U "json", JInt 1);
        (U "page_size", JInt 1) ] /\
    forall resp sd,
      net (search_product_request (strip (py_str v))) = GetReturns resp ->
      raise_for_status resp = None ->
      json_body resp = Some (JObj sd) ->
      (dict_lookup (U "products") sd = None \/
       dict_lookup (U "products") sd = Some (JList []) ->
       fin = Responded 404 (error_body (U "Product not found"))) /\
      (forall first rest,
         dict_lookup (U "products") sd = Some (JList (first :: rest)) ->
         fin = match build_product_response first with
               | Ok result => Responded 200 (JObj result)
               | Raise e => Crashed e
               end).
Proof.
  intros Hv Hn. rewrite (search_product_accepts o v Hv Hn).
  destruct (run_search_get net (strip (py_str v))) as (fin & Hf & Hr).
  exists fin. split; [assumption|]. split; [reflexivity|].
  intros resp sd Hnet Hs Hb. rewrite Hnet in Hf.
  rewrite (search_product_after_json resp sd Hs Hb) in Hf. split.
  - intros [Hp|Hp]; rewrite Hp in Hf; simpl in Hf; now injection Hf as <-.
  - intros first rest Hp. rewrite Hp in Hf. cbn [from_option id truthy negb py_first or_escape] in Hf.
    destruct (build_product_response first); simpl in Hf; now injection Hf as <-.
Qed.

(** C3, where the code departs from it: upstream returns one product with no
    recognised field.  [search_product] answers 200 with the empty mapping;
    [scan_barcode], on the same product, answers 404. *)
Theorem C3_empty_result_search_200 :
  run (fun _ => GetReturns
                  {| status_code := 200; error_text := [];
                     json_body := Some (JObj [(U "products", JList [JObj []])]) |})
      (search_product (JObj [(U "name", JStr (U "xyzzy"))])) =
    ([search_product_request (U "xyzzy")], Responded 200 (JObj [])) /\
  run (fun _ => GetReturns
                  {| status_code := 200; error_text := [];
                     json_body := Some (JObj [(U "status", JInt 1);
                                              (U "product", JObj [])]) |})
      (scan_barcode API_KEY (JObj [(U "barcode", JStr (U "0123456789012"))])) =
    ([scan_barcode_request API_KEY (U "0123456789012")],
     Responded 404
       (error_body (U "Product found but contains no usable data"))).
Proof.
  split.
  - rewrite (search_product_accepts
               [(U "name", JStr (U "xyzzy"))] (JStr (U "xyzzy")) eq_refl)
      by (rewrite py_str_str; vm_compute; discriminate).
    rewrite py_str_str. vm_compute. reflexivity.
  - rewrite (scan_barcode_accepts
               [(U "barcode", JStr (U "0123456789012"))]
               (JStr (U "0123456789012")) eq_refl)
      by (rewrite py_str_str; vm_compute; reflexivity).
    rewrite py_str_str. vm_compute. reflexivity.
Qed.

End HandlerFacts.

(** ** The handlers on concrete requests *)

(** A timed-out GET for a well-formed barcode is answered 504. *)
Lemma C8_transport_failures_witness :
  (run (fun _ => GetRaises ReadTimeout (U "Read timed out."))
       (@scan_barcode ascii_runtime []
          (JObj [(U "barcode", JStr (U "5449000000996"))]))).2 =
  Responded 504 (error_body (U "External API timed out. Please try again.")).
Proof.
  refine (proj1 (@C8_transport_failures ascii_runtime []
                   (fun _ => GetRaises ReadTimeout (U "Read timed out."))
                   (JObj [(U "barcode", JStr (U "5449000000996"))])
                   (scan_barcode_request [] (U "5449000000996")) []
                   _ ReadTimeout (U "Read timed out.") _ _) _).
  - vm_compute. reflexivity.
  - reflexivity.
  - reflexivity.
Defined.

(** Upstream answers HTTP 200 with [status] 0: 404 "Product not found". *)
Lemma C2_status_flag_witness :
  (run (fun _ => GetReturns
                   {| status_code := 200; error_text := [];
                      json_body := Some (JObj [(U "status", JInt 0)]) |})
       (@scan_barcode ascii_runtime []
          (JObj [(U "barcode", JStr (U "5449000000996"))]))).2 =
  Responded 404 (error_body (U "Product not found")).
Proof.
  refine (proj1 (@C2_status_flag ascii_runtime []
                   (fun _ => GetReturns
                      {| status_code := 200; error_text := [];
                         json_body := Some (JObj [(U "status", JInt 0)]) |})
                   (JObj [(U "barcode", JStr (U "5449000000996"))])
                   (scan_barcode_request [] (U "5449000000996")) []
                   _ _ [(U "status", JInt 0)] _ _ _ _) _).
  - vm_compute. reflexivity.
  - reflexivity.
  - reflexivity.
  - reflexivity.
  - simpl. lia.
Defined.

(** Upstream answers HTTP 404 with [status] 0 in its envelope: whatever the
    runtime and the key, the handler answers 500, not 404. *)
Lemma C2_http_error_counterexample :
  exists resp env,
    json_body resp = Some (JObj env) /\
    py_eq_int (from_option id JNull (dict_lookup (U "status") env)) 1 = false /\
    forall (R : PyRuntime) (API_KEY : str),
      run (fun _ => GetReturns resp)
          (scan_barcode API_KEY (JObj [(U "barcode", JStr (U "5449000000996"))])) =
      ([scan_barcode_request API_KEY (U "5449000000996")],
       Responded 500
         (error_body (U "API request failed: 404 Client Error: Not Found"))).
Proof.
  exists {| status_code := 404; error_text := U "404 Client Error: Not Found";
            json_body := Some (JObj [(U "status", JInt 0)]) |},
         [(U "status", JInt 0)].
  split; [reflexivity|]. split; [reflexivity|]. intros R API_KEY.
  rewrite (scan_barcode_accepts API_KEY
             [(U "barcode", JStr (U "5449000000996"))]
             (JStr (U "5449000000996")) eq_refl)
    by (rewrite py_str_str; vm_compute; reflexivity).
  rewrite py_str_str. vm_compute. reflexivity.
Qed.

(** "123" and "12a456" are answered 400 with no GET; thirteen ASCII digits
    pass the check. *)
Lemma C4_barcode_validation_witness :
  (exists msg,
     run (fun _ => GetRaises ConnectionError [])
         (@scan_barcode ascii_runtime [] (JObj [(U "barcode", JStr (U "123"))])) =
       ([], Responded 400 (error_body msg))) /\
  (exists msg,
     run (fun _ => GetRaises ConnectionError [])
         (@scan_barcode ascii_runtime []
            (JObj [(U "barcode", JStr (U "12a456"))])) =
       ([], Responded 400 (error_body msg))) /\
  (exists fin,
     run (fun _ => GetRaises ConnectionError [])
         (@scan_barcode ascii_runtime []
            (JObj [(U "barcode", JStr (U "0123456789012"))])) =
       ([scan_barcode_request []
           (strip (@py_str ascii_runtime (JStr (U "0123456789012"))))], fin)).
Proof.
  split; [|split].
  - apply (proj1 (@C4_barcode_validation ascii_runtime [] _
                    [(U "barcode", JStr (U "123"))] (JStr (U "123")) eq_refl)).
    reflexivity.
  - apply (proj1 (@C4_barcode_validation ascii_runtime [] _
                    [(U "barcode", JStr (U "12a456"))] (JStr (U "12a456"))
                    eq_refl)).
    reflexivity.
  - apply (proj1 (proj2 (@C4_barcode_validation ascii_runtime [] _
                    [(U "barcode", JStr (U "0123456789012"))]
                    (JStr (U "0123456789012")) eq_refl))).
    reflexivity.
Defined.

(** Four Arabic-Indic digits are no ASCII digits, trimming leaves them as
    they are, and the GET is issued for them. *)
Lemma C4_unicode_digits_counterexample :
  ascii_barcode (strip [0x661; 0x662; 0x663; 0x664]) = false /\
  forallb is_ascii_digit [0x661; 0x662; 0x663; 0x664] = false /\
  forall (R : PyRuntime) (API_KEY : str) (net : http_request -> get_outcome),
  exists fin,
    run net (scan_barcode API_KEY
               (JObj [(U "barcode", JStr [0x661; 0x662; 0x663; 0x664])])) =
    ([scan_barcode_request API_KEY [0x661; 0x662; 0x663; 0x664]], fin).
Proof.
  split; [reflexivity|]. split; [reflexivity|]. intros R API_KEY net.
  rewrite (scan_barcode_accepts API_KEY
             [(U "barcode", JStr [0x661; 0x662; 0x663; 0x664])]
             (JStr [0x661; 0x662; 0x663; 0x664]) eq_refl)
    by (rewrite py_str_str; vm_compute; reflexivity).
  rewrite py_str_str.
  change (strip [0x661; 0x662; 0x663; 0x664]) with [0x661; 0x662; 0x663; 0x664].
  destruct (run_scan_get API_KEY net [0x661; 0x662; 0x663; 0x664])
    as (fin & _ & Hr).
  now exists fin.
Qed.

(** A search for "chocolate". *)
Lemma C9_search_first_result_witness :
  exists fin,
    run (fun _ => GetReturns
                    {| status_code := 200; error_text := [];
                       json_body := Some (JObj [(U "products", JList [])]) |})
        (@search_product ascii_runtime (JObj [(U "name", JStr (U "chocolate"))])) =
      ([search_product_request
          (strip (@py_str ascii_runtime (JStr (U "chocolate"))))], fin) /\
    fin = Responded 404 (error_body (U "Product not found")).
Proof.
  destruct (@C9_search_first_result ascii_runtime
              (fun _ => GetReturns
                 {| status_code := 200; error_text := [];
                    json_body := Some (JObj [(U "products", JList [])]) |})
              [(U "name", JStr (U "chocolate"))] (JStr (U "chocolate")) eq_refl)
    as (fin & Hrun & _ & Hreply).
  - vm_compute. discriminate.
  - exists fin. split; [exact Hrun|].
    apply (Hreply _ [(U "products", JList [])] eq_refl eq_refl eq_refl).
    right. reflexivity.
Defined.

(** ** The response builder *)

Lemma Forall_dict_set (P : str * json -> Prop) (d : dict) (k : str) (v : json) :
  P (k, v) -> Forall P d -> Forall P (dict_set d k v).
Proof.
  intros Hkv. induction d as [|[k' v'] d IH]; simpl; intros Hd.
  - now constructor.
  - apply Forall_cons in Hd as [Hx Hd].
    case_bool_decide; constructor; auto.
Qed.

Lemma Forall_if_set (P : str * json -> Prop) (c : bool) (d : dict)
    (k : str) (v : json) :
  (c = true -> P (k, v)) -> Forall P d ->
  Forall P (if c then dict_set d k v else d).
Proof. destruct c; auto using Forall_dict_set. Qed.

Lemma dict_lookup_set (k k' : str) (d : dict) (v : json) :
  dict_lookup k (dict_set d k' v) =
  if bool_decide (k' = k) then Some v else dict_lookup k d.
Proof.
  induction d as [|[k0 v0] d IH]; simpl; [reflexivity|].
  destruct (decide (k0 = k')) as [->|Hne].
  - rewrite bool_decide_eq_true_2 by reflexivity. simpl.
    now case_bool_decide.
  - rewrite bool_decide_eq_false_2 by assumption. simpl. rewrite IH.
    repeat case_bool_decide; congruence.
Qed.

Lemma dict_lookup_if_set (k k' : str) (c : bool) (d : dict) (v : json) :
  dict_lookup k (if c then dict_set d k' v else d) =
  if bool_decide (k' = k)
  then (if c then Some v else dict_lookup k d)
  else dict_lookup k d.
Proof.
  destruct c; [apply dict_lookup_set | now case_bool_decide].
Qed.

Lemma truthy_not_empty (v : json) :
  truthy v = true -> v <> JStr [] /\ v <> JList [] /\ v <> JNull.
Proof. intros Ht. repeat split; intros ->; discriminate Ht. Qed.

Lemma mapM_result_length {A B} (f : A -> result B) (l : list A) (k : list B) :
  mapM f l = Ok k -> length k = length l.
Proof.
  revert k. induction l as [|x l IH]; simpl; intros k.
  - now intros [= <-].
  - destruct (f x) as [y|]; simpl; [|discriminate].
    destruct (mapM f l) as [k'|]; simpl; [|discriminate].
    intros [= <-]. simpl. now rewrite (IH k').
Qed.

Lemma py_iter_truthy (v : json) (items : list json) :
  truthy v = true -> py_iter v = Ok items -> items <> [].
Proof.
  destruct v as [| | | |s|l|o]; simpl; try discriminate.
  - destruct s; [discriminate|]. now intros _ [= <-].
  - destruct l; [discriminate|]. now intros _ [= <-].
  - destruct o; [discriminate|]. now intros _ [= <-].
Qed.

Lemma emitted_truthy (k : str) (v : json) :
  k <> U "nutriscore_score" -> truthy v = true -> emitted (k, v).
Proof.
  intros Hk Ht. right. split; [assumption|]. split; [assumption|].
  now apply truthy_not_empty.
Qed.

Ltac eval_key_tests :=
  repeat match goal with
         | |- context [bool_decide (U ?a = U ?b)] =>
             let r := eval vm_compute in (bool_decide (U a = U b)) in
             change (bool_decide (U a = U b)) with r
         end.

(** The first assignment, into the empty [response]. *)
Ltac first_field :=
  match goal with
  | |- Forall _ (if ?c then _ else _) =>
      let Ht := fresh "Ht" in
      destruct c eqn:Ht;
      [ constructor;
        [ apply emitted_truthy; [vm_compute; discriminate | exact Ht]
        | constructor ]
      | constructor ]
  end.

Ltac name_first_set :=
  match goal with
  | |- context [if ?c then [(?k, ?v)] else []] =>
      change (if c then [(k, v)] else []) with (if c then dict_set [] k v else [])
  end.

Section Builder.
Context {R : PyRuntime}.

(** C7, as the code has it: every field but the score is emitted only with a
    non-empty value, so none of them is an empty string, an empty list or
    null; the score is emitted exactly when the source value is not null and
    carries that value unchanged, so it is never null and a score of 0 is
    kept. *)
Theorem C7_omission (o response : dict) :
  build_product_response (JObj o) = Ok response ->
  Forall emitted response /\
  dict_lookup (U "nutriscore_score") response =
    match dict_lookup (U "nutriscore_score") o with
    | Some JNull | None => None
    | Some score => Some score
    end.
Proof.
  unfold build_product_response. cbn [py_get mbind result_bind].
  destruct (parse_ingredients _) as [ingredients|]; [|discriminate].
  cbn [mbind result_bind].
  destruct (classify_additives _) as [[additives preservatives]|];
    [|discriminate].
  cbn [mbind result_bind].
  set (nutriscore := from_option id JNull (dict_lookup (U "nutriscore_score") o)).
  set (allergens_tags := from_option id (JList []) (dict_lookup (U "allergens_tags") o)).
  destruct (truthy allergens_tags) eqn:Hal.
  - destruct (py_iter allergens_tags) as [items|] eqn:Hit; [|discriminate].
    cbn [mbind result_bind].
    destruct (mapM strip_allergen items) as [stripped|] eqn:Hmap; [|discriminate].
    cbn [mbind result_bind]. intros [= <-]. split.
    + apply Forall_if_set;
        [intros Ht; apply emitted_truthy; [vm_compute; discriminate | exact Ht]|].
      apply Forall_dict_set.
      { apply emitted_truthy; [vm_compute; discriminate|].
        apply mapM_result_length in Hmap.
        pose proof (py_iter_truthy _ _ Hal Hit) as Hne.
        destruct stripped; [|reflexivity]. destruct items; [congruence|discriminate]. }
      apply Forall_if_set.
      { intros Hn. left. split; [reflexivity|].
        now destruct nutriscore. }
      repeat (apply Forall_if_set;
                [intros Ht; apply emitted_truthy;
                   [vm_compute; discriminate | exact Ht]|]).
      first_field.
    + name_first_set.
      rewrite dict_lookup_if_set, dict_lookup_set, !dict_lookup_if_set.
      eval_key_tests. cbn [dict_lookup]. subst nutriscore.
      destruct (dict_lookup (U "nutriscore_score") o) as [[]|]; reflexivity.
  - cbn [mbind result_bind]. intros [= <-]. split.
    + apply Forall_if_set;
        [intros Ht; apply emitted_truthy; [vm_compute; discriminate | exact Ht]|].
      apply Forall_if_set.
      { intros Hn. left. split; [reflexivity|].
        now destruct nutriscore. }
      repeat (apply Forall_if_set;
                [intros Ht; apply emitted_truthy;
                   [vm_compute; discriminate | exact Ht]|]).
      first_field.
    + name_first_set. rewrite !dict_lookup_if_set.
      eval_key_tests. cbn [dict_lookup]. subst nutriscore.
      destruct (dict_lookup (U "nutriscore_score") o) as [[]|]; reflexivity.
Qed.

End Builder.

(** A product with an empty name and a score of 0: the name is left out and
    the score is kept. *)
Lemma C7_omission_witness :
  Forall emitted [(U "nutriscore_score", JInt 0)] /\
  dict_lookup (U "nutriscore_score") [(U "nutriscore_score", JInt 0)] =
    match dict_lookup (U "nutriscore_score")
            [(U "product_name", JStr []); (U "nutriscore_score", JInt 0)] with
    | Some JNull | None => None
    | Some score => Some score
    end.
Proof.
  apply (@C7_omission ascii_runtime
           [(U "product_name", JStr []); (U "nutriscore_score", JInt 0)]
           [(U "nutriscore_score", JInt 0)]).
  vm_compute. reflexivity.
Defined.

(** A score that is the empty string is not null, so it is emitted as it is:
    the response then holds a key whose value is an empty string. *)
Lemma C7_empty_score_counterexample :
  dict_lookup (U "nutriscore_score") [(U "nutriscore_score", JStr [])] =
    Some (JStr []) /\
  forall R : PyRuntime,
    @build_product_response R (JObj [(U "nutriscore_score", JStr [])]) =
    Ok [(U "nutriscore_score", JStr [])].
Proof.
  split; [reflexivity|]. intros R.
  rewrite build_product_response_ascii by (vm_compute; reflexivity).
  vm_compute. reflexivity.
Qed.

(** * Further properties *)

(** ** The ingredient parser, continued *)

Lemma space_not_separator (c : N) :
  is_space c = true -> is_ingredient_separator c = false.
Proof.
  intros Hs. destruct (is_ingredient_separator c) eqn:Hc; [|reflexivity].
  apply is_ingredient_separator_spec in Hc as [->|[->| ->]]; discriminate Hs.
Qed.

Lemma lstrip_spaces (w s : str) :
  forallb is_space w = true -> lstrip (w ++ s) = lstrip s.
Proof.
  induction w as [|c w IH]; simpl; [reflexivity|].
  rewrite andb_true_iff. intros [-> Hw]. auto.
Qed.

Lemma strip_spaces_l (w s : str) :
  forallb is_space w = true -> strip (w ++ s) = strip s.
Proof. intros Hw. unfold strip. now rewrite lstrip_spaces. Qed.

Lemma re_split_no_sep (is_sep : N -> bool) (p : str) :
  Forall (fun c => is_sep c = false) p -> re_split is_sep p = [p].
Proof.
  induction 1 as [|c p Hc _ IH]; simpl; [reflexivity|]. now rewrite Hc, IH.
Qed.

Lemma re_split_app_sep (is_sep : N -> bool) (p : str) (c : N) (t : str) :
  Forall (fun c => is_sep c = false) p -> is_sep c = true ->
  re_split is_sep (p ++ c :: t) = p :: re_split is_sep t.
Proof.
  intros Hp Hc. induction Hp as [|x p Hx _ IH]; simpl.
  - now rewrite Hc.
  - now rewrite Hx, IH.
Qed.

Lemma join_around_infix (parts : list str) (seps : list N) (p : str) :
  p ∈ parts -> length parts = S (length seps) ->
  exists a b, join_around parts seps = a ++ p ++ b.
Proof.
  revert seps. induction parts as [|q parts IH]; intros seps Hp Hlen.
  - now apply elem_of_nil in Hp.
  - destruct seps as [|c seps]; simpl in *.
    + destruct parts; [|discriminate].
      apply list_elem_of_singleton in Hp as ->. exists [], [].
      now rewrite app_nil_r.
    + apply elem_of_cons in Hp as [->|Hp].
      * now exists [], (c :: join_around parts seps).
      * destruct (IH seps Hp) as (a & b & ->); [congruence|].
        exists (q ++ c :: a), b. now rewrite <- app_assoc.
Qed.

Lemma re_split_infix (is_sep : N -> bool) (s p : str) :
  p ∈ re_split is_sep s -> exists a b, s = a ++ p ++ b.
Proof.
  intros Hp. destruct (re_split_spec is_sep s) as (seps & Hj & Hl & _ & _).
  destruct (join_around_infix _ seps p Hp Hl) as (a & b & Hab).
  exists a, b. congruence.
Qed.

Lemma strip_infix (p : str) : exists a b, p = a ++ strip p ++ b.
Proof. destruct (strip_spec p) as (a & b & Hp & _). eauto. Qed.

Lemma strip_no_sep (is_sep : N -> bool) (p : str) :
  Forall (fun c => is_sep c = false) p ->
  Forall (fun c => is_sep c = false) (strip p).
Proof.
  destruct (strip_infix p) as (a & b & Hp). intros Hall. rewrite Hp in Hall.
  now apply Forall_app in Hall as [_ [Hs _]%Forall_app].
Qed.

Lemma parse_ingredients_no_separator (s : str) (out : list str) :
  parse_ingredients (JStr s) = Ok out ->
  Forall (Forall (fun c => is_ingredient_separator c = false)) out.
Proof.
  rewrite parse_ingredients_str. intros [= <-].
  destruct (re_split_spec is_ingredient_separator s) as (_ & _ & _ & _ & Hparts).
  apply Forall_fmap, Forall_forall. intros p Hp.
  apply list_elem_of_filter in Hp as [_ Hp]. simpl.
  apply strip_no_sep. rewrite Forall_forall in Hparts. now apply Hparts.
Qed.

(** X2: every entry [parse_ingredients] returns stands verbatim in the input
    and holds no comma, semicolon or bullet. *)
Theorem parse_ingredients_entries_verbatim (s : str) (out : list str) :
  parse_ingredients (JStr s) = Ok out ->
  Forall (fun e => (exists a b, s = a ++ e ++ b) /\
                   Forall (fun c => is_ingredient_separator c = false) e) out.
Proof.
  rewrite parse_ingredients_str. intros [= <-].
  destruct (re_split_spec is_ingredient_separator s) as (_ & _ & _ & _ & Hparts).
  apply Forall_fmap, Forall_forall. intros p Hp.
  apply list_elem_of_filter in Hp as [_ Hp]. simpl. split.
  - destruct (re_split_infix _ _ _ Hp) as (a & b & ->).
    destruct (strip_infix p) as (a' & b' & Hs).
    exists (a ++ a'), (b' ++ b). rewrite Hs at 1. now rewrite <- !app_assoc.
  - apply strip_no_sep. rewrite Forall_forall in Hparts. now apply Hparts.
Qed.

Lemma parse_ingredients_entries_verbatim_witness :
  Forall (fun e => (exists a b, U " Sugar ,Salt" = a ++ e ++ b) /\
                   Forall (fun c => is_ingredient_separator c = false) e)
         [U "Sugar"; U "Salt"].
Proof.
  apply (parse_ingredients_entries_verbatim (U " Sugar ,Salt")).
  vm_compute. reflexivity.
Defined.

Lemma re_split_join (c : N) (w e : str) (rest : list str) :
  is_ingredient_separator c = true ->
  Forall (fun c' => is_ingredient_separator c' = false) w ->
  Forall (fun c' => is_ingredient_separator c' = false) e ->
  Forall (Forall (fun c' => is_ingredient_separator c' = false)) rest ->
  re_split is_ingredient_separator
    (e ++ mjoin ((fun x => (c :: w) ++ x) <$> rest)) =
  e :: ((fun x => w ++ x) <$> rest).
Proof.
  intros Hc Hw He Hrest. revert e He.
  induction Hrest as [|x rest Hx _ IH]; intros e He; simpl.
  - rewrite app_nil_r. now apply re_split_no_sep.
  - rewrite re_split_app_sep by assumption.
    rewrite IH; [reflexivity|]. now apply Forall_app.
Qed.

(** X1: joining the entries [parse_ingredients] returned with a separator,
    followed or not by white space, and parsing again gives the same
    entries. *)
Theorem parse_ingredients_join (s : str) (out : list str) (c : N) (w : str) :
  parse_ingredients (JStr s) = Ok out ->
  is_ingredient_separator c = true ->
  forallb is_space w = true ->
  parse_ingredients (JStr (str_join (c :: w) out)) = Ok out.
Proof.
  intros Hparse Hc Hw.
  pose proof (parse_ingredients_no_separator s out Hparse) as Hverb.
  destruct (parse_ingredients_entries s) as (out' & Hp' & Hent).
  rewrite Hparse in Hp'. injection Hp' as <-.
  rewrite parse_ingredients_str. f_equal.
  destruct out as [|e rest]; [reflexivity|].
  assert (Hwsep : Forall (fun c' => is_ingredient_separator c' = false) w).
  { rewrite forallb_forall in Hw. apply Forall_forall. intros x Hx.
    apply space_not_separator, Hw. now apply list_elem_of_In. }
  apply Forall_cons in Hverb as [He Hrest].
  apply Forall_cons in Hent as [[Hne Hse] Hent].
  unfold str_join. rewrite re_split_join; try assumption.
  rewrite filter_cons_True by now rewrite Hse.
  rewrite fmap_cons, Hse. f_equal.
  clear Hparse Hrest He Hne Hse. induction Hent as [|x rest [Hx Hsx] _ IH]; [reflexivity|].
  rewrite fmap_cons.
  rewrite filter_cons_True by now rewrite strip_spaces_l, Hsx.
  rewrite fmap_cons, strip_spaces_l, Hsx by assumption. now f_equal.
Qed.

Lemma parse_ingredients_join_witness :
  parse_ingredients (JStr (str_join (U ", ") [U "Sugar"; U "Salt"; U "Milk"])) =
  Ok [U "Sugar"; U "Salt"; U "Milk"].
Proof.
  apply (parse_ingredients_join (U "Sugar;; Salt ;Milk") _ 0x2C (U " "));
    vm_compute; reflexivity.
Defined.

(** ** The additive classifier, continued *)

Lemma all_str_fmap (items : list json) :
  forallb is_str items = true -> exists tags, items = JStr <$> tags.
Proof.
  induction items as [|x items IH]; simpl.
  - now exists [].
  - rewrite andb_true_iff. intros [Hx Hi]. destruct (IH Hi) as [tags ->].
    destruct x; try discriminate Hx. now exists (s :: tags).
Qed.

Lemma ascii_upper_not_lowercase (c : N) :
  is_ascii_lowercase (ascii_upper c) = false.
Proof.
  unfold is_ascii_lowercase, ascii_upper.
  destruct (N.leb_spec 0x61 c), (N.leb_spec c 0x7A); cbn [andb];
    repeat match goal with
           | |- context [?a <=? ?b] => destruct (N.leb_spec a b)
           end; cbn [andb]; try reflexivity; lia.
Qed.

Lemma ascii_upper_is_ascii (c : N) :
  is_ascii c = true -> is_ascii (ascii_upper c) = true.
Proof.
  unfold is_ascii, ascii_upper. rewrite !N.ltb_lt.
  destruct ((0x61 <=? c) && (c <=? 0x7A)); lia.
Qed.

Section ClassifierMore.
Context {R : PyRuntime}.

Lemma classify_tag_str (acc : list str * list str) (t : str) :
  exists acc', classify_tag acc (JStr t) = Ok acc'.
Proof.
  unfold classify_tag. destruct acc as [a p]. case_bool_decide; eauto.
Qed.

Lemma for_in_classify_not_str (items : list json) (acc : list str * list str) :
  forallb is_str items = false ->
  for_in items classify_tag acc = Raise AttributeError.
Proof.
  revert acc. induction items as [|x items IH]; intros acc; [discriminate|].
  cbn [forallb for_in].
  destruct x; cbn [is_str andb]; try (destruct acc; reflexivity).
  intros Hi. destruct (classify_tag_str acc s) as [acc' ->].
  cbn [mbind result_bind]. now apply IH.
Qed.

(** X3: on a non-empty argument, [classify_additives] raises [TypeError] when
    the argument cannot be iterated, raises [AttributeError] when one of its
    elements is not a string, and otherwise returns two lists that share out
    the elements; a string is taken character by character and a mapping key
    by key. *)
Theorem classify_additives_outcomes (v : json) :
  truthy v = true ->
  match py_iter v with
  | Raise _ => classify_additives v = Raise TypeError
  | Ok items =>
      if forallb is_str items
      then exists additives preservatives,
             classify_additives v = Ok (additives, preservatives) /\
             (length additives + length preservatives = length items)%nat
      else classify_additives v = Raise AttributeError
  end.
Proof.
  intros Ht. unfold classify_additives. rewrite Ht. cbn [negb].
  destruct (py_iter v) as [items|e] eqn:Hit.
  - cbn [mbind result_bind].
    destruct (forallb is_str items) eqn:Hall.
    + destruct (all_str_fmap items Hall) as [tags ->].
      rewrite for_in_classify. do 2 eexists. split; [reflexivity|].
      cbn [app]. rewrite !length_fmap, Nat.add_comm, <- length_app.
      rewrite <- (length_fmap clean_tag tags).
      apply Permutation_length, filter_app_complement.
    + now apply for_in_classify_not_str.
  - cbn [mbind result_bind].
    destruct v; try discriminate Hit; now injection Hit as <-.
Qed.

(** X4: on tags that are ASCII text, every name in [preservatives] is, once
    lower-cased, a member of [PRESERVATIVE_CODES], no name in [additives] is,
    and no name holds a lower-case letter. *)
Theorem classify_additives_ascii_names (tags : list str)
    (additives preservatives : list str) :
  Forall (fun t => forallb is_ascii (clean_tag t) = true) tags ->
  classify_additives (JList (JStr <$> tags)) = Ok (additives, preservatives) ->
  Forall (fun x => (str_lower x ∈ PRESERVATIVE_CODES) /\
                   Forall (fun c => is_ascii_lowercase c = false) x)
         preservatives /\
  Forall (fun x => (str_lower x ∉ PRESERVATIVE_CODES) /\
                   Forall (fun c => is_ascii_lowercase c = false) x)
         additives.
Proof.
  intros Hascii. rewrite classify_additives_list. intros [= <- <-].
  assert (Hname : forall n, n ∈ clean_tag <$> tags ->
            str_lower (str_upper n) = str_lower n /\
            Forall (fun c => is_ascii_lowercase c = false) (str_upper n)).
  { intros n Hn. apply list_elem_of_fmap in Hn as (t & -> & Ht).
    rewrite Forall_forall in Hascii. pose proof (Hascii t Ht) as Ha.
    rewrite str_upper_ascii by assumption.
    assert (forallb is_ascii (ascii_upper <$> clean_tag t) = true) as Hu.
    { rewrite forallb_forall in *. intros c Hc.
      apply list_elem_of_In, list_elem_of_fmap in Hc as (c' & -> & Hc').
      apply ascii_upper_is_ascii, Ha. now apply list_elem_of_In. }
    rewrite !str_lower_ascii by assumption. split.
    - rewrite <- list_fmap_compose. apply list_fmap_ext.
      intros; apply ascii_lower_upper.
    - apply Forall_fmap, Forall_forall. intros c _.
      apply ascii_upper_not_lowercase. }
  split; apply Forall_fmap, Forall_forall; intros n Hn;
    apply list_elem_of_filter in Hn as [Hc Hn]; simpl;
    destruct (Hname n Hn) as [Hl Hu]; (split; [now rewrite Hl | exact Hu]).
Qed.

End ClassifierMore.

Lemma classify_additives_outcomes_witness :
  exists additives preservatives,
    @classify_additives ascii_runtime (JStr (U "e2")) =
      Ok (additives, preservatives) /\
    (length additives + length preservatives = 2)%nat.
Proof.
  exact (@classify_additives_outcomes ascii_runtime (JStr (U "e2")) eq_refl).
Defined.

Lemma classify_additives_ascii_names_witness :
  Forall (fun x => (@str_lower ascii_runtime x ∈ PRESERVATIVE_CODES) /\
                   Forall (fun c => is_ascii_lowercase c = false) x)
         [U "E211"] /\
  Forall (fun x => (@str_lower ascii_runtime x ∉ PRESERVATIVE_CODES) /\
                   Forall (fun c => is_ascii_lowercase c = false) x)
         [U "E330"].
Proof.
  apply (@classify_additives_ascii_names ascii_runtime
           [U "en:e330"; U "en:E211"]).
  - repeat constructor.
  - reflexivity.
Defined.

(** ** The response builder, continued *)

Lemma dict_set_fresh (d : dict) (k : str) (v : json) :
  dict_lookup k d = None -> dict_set d k v = d ++ [(k, v)].
Proof.
  induction d as [|[k' v'] d IH]; simpl; [reflexivity|].
  case_bool_decide; [discriminate|]. intros Hd. now rewrite IH.
Qed.

Lemma dict_lookup_app (k : str) (d d' : dict) :
  dict_lookup k (d ++ d') =
  match dict_lookup k d with
  | Some v => Some v
  | None => dict_lookup k d'
  end.
Proof.
  induction d as [|[k' v'] d IH]; simpl; [reflexivity|].
  now case_bool_decide.
Qed.

Lemma dict_lookup_opt (k k' : str) (c : bool) (v : json) :
  dict_lookup k (opt c k' v) =
  if bool_decide (k' = k) then (if c then Some v else None) else None.
Proof. destruct c; simpl; now case_bool_decide. Qed.

(** A run of conditional assignments to distinct keys that the mapping lacks
    appends, in order, the entries whose condition holds. *)
Lemma foldl_assign (fs : list (bool * str * json)) (r : dict) :
  NoDup ((fun a => a.1.2) <$> fs) ->
  Forall (fun a => dict_lookup a.1.2 r = None) fs ->
  foldl assign r fs = r ++ mjoin ((fun a => opt a.1.1 a.1.2 a.2) <$> fs).
Proof.
  revert r. induction fs as [|[[c k] v] fs IH]; intros r Hnd Hfresh.
  - simpl. now rewrite app_nil_r.
  - rewrite fmap_cons in Hnd. apply NoDup_cons in Hnd as [Hk Hnd].
    apply Forall_cons in Hfresh as [Hkr Hfresh]. simpl in Hk, Hkr.
    cbn [foldl fmap list_fmap mjoin list_join]. rewrite IH; [|assumption|].
    + unfold assign, opt at 2. cbn [fst snd]. destruct c.
      * rewrite dict_set_fresh by assumption. now rewrite <- app_assoc.
      * reflexivity.
    + apply Forall_forall. intros a Ha. rewrite Forall_forall in Hfresh.
      unfold assign. cbn [fst snd]. destruct c; [|now apply Hfresh].
      rewrite dict_set_fresh, dict_lookup_app, (Hfresh a Ha) by assumption.
      simpl. rewrite bool_decide_eq_false_2; [reflexivity|].
      intros ->. apply Hk, list_elem_of_fmap. now exists a.
Qed.

Lemma mapM_strip_allergen (items : list json) :
  forallb is_str items = true ->
  exists tags, items = JStr <$> tags /\
    mapM strip_allergen items = Ok (JStr <$> (str_replace (U "en:") [] <$> tags)).
Proof.
  intros Hall. destruct (all_str_fmap items Hall) as [tags ->].
  exists tags. split; [reflexivity|].
  induction tags as [|t tags IH]; [reflexivity|].
  rewrite !fmap_cons. cbn [mapM strip_allergen mbind result_bind].
  rewrite IH by (simpl in Hall; assumption). reflexivity.
Qed.

Lemma mapM_strip_allergen_not_str (items : list json) :
  forallb is_str items = false ->
  mapM strip_allergen items = Raise AttributeError.
Proof.
  induction items as [|x items IH]; [discriminate|].
  cbn [forallb mapM]. destruct x; cbn [is_str andb strip_allergen mbind result_bind];
    try reflexivity.
  intros Hi. now rewrite IH.
Qed.

Section BuilderMore.
Context {R : PyRuntime}.

(** The layout of a response: the fields in the order of the assignments,
    each present when its condition holds. *)
Lemma build_product_response_layout (o response : dict) :
  build_product_response (JObj o) = Ok response ->
  exists ingredients additives preservatives (allergens : dict),
    parse_ingredients (dict_get o (U "ingredients_text") (JStr [])) =
      Ok ingredients /\
    classify_additives (dict_get o (U "additives_tags") (JList [])) =
      Ok (additives, preservatives) /\
    (if truthy (dict_get o (U "allergens_tags") (JList []))
     then exists items stripped,
            py_iter (dict_get o (U "allergens_tags") (JList [])) = Ok items /\
            mapM strip_allergen items = Ok stripped /\
            length stripped = length items /\
            allergens = opt true (U "allergens_tags") (JList stripped)
     else allergens = []) /\
    response =
      field (U "product_name") (dict_get o (U "product_name") (JStr [])) ++
      field (U "image") (dict_get o (U "image_url") (JStr [])) ++
      field (U "ingredients") (str_list ingredients) ++
      field (U "additives") (str_list additives) ++
      field (U "preservatives") (str_list preservatives) ++
      field (U "categories") (dict_get o (U "categories") (JStr [])) ++
      opt (negb (is_None (dict_get o (U "nutriscore_score") JNull)))
          (U "nutriscore_score") (dict_get o (U "nutriscore_score") JNull) ++
      allergens ++
      field (U "ingredients_analysis_tags")
            (dict_get o (U "ingredients_analysis_tags") (JList [])).
Proof.
  unfold build_product_response. cbn [py_get mbind result_bind].
  fold (dict_get o (U "ingredients_text") (JStr [])).
  fold (dict_get o (U "additives_tags") (JList [])).
  destruct (parse_ingredients _) as [ingredients|]; [|discriminate].
  cbn [mbind result_bind].
  destruct (classify_additives _) as [[additives preservatives]|];
    [|discriminate].
  cbn [mbind result_bind].
  fold (dict_get o (U "allergens_tags") (JList [])).
  fold (dict_get o (U "product_name") (JStr [])).
  fold (dict_get o (U "image_url") (JStr [])).
  fold (dict_get o (U "categories") (JStr [])).
  fold (dict_get o (U "nutriscore_score") JNull).
  fold (dict_get o (U "ingredients_analysis_tags") (JList [])).
  set (al := dict_get o (U "allergens_tags") (JList [])).
  intros Hr. exists ingredients, additives, preservatives.
  assert (Hshape : exists c stripped,
    (if truthy al
     then exists items, py_iter al = Ok items /\
            mapM strip_allergen items = Ok stripped /\ c = true
     else c = false) /\
    response =
      foldl assign []
        [ (truthy (dict_get o (U "product_name") (JStr [])), U "product_name",
           dict_get o (U "product_name") (JStr []));
          (truthy (dict_get o (U "image_url") (JStr [])), U "image",
           dict_get o (U "image_url") (JStr []));
          (truthy (str_list ingredients), U "ingredients", str_list ingredients);
          (truthy (str_list additives), U "additives", str_list additives);
          (truthy (str_list preservatives), U "preservatives",
           str_list preservatives);
          (truthy (dict_get o (U "categories") (JStr [])), U "categories",
           dict_get o (U "categories") (JStr []));
          (negb (is_None (dict_get o (U "nutriscore_score") JNull)),
           U "nutriscore_score", dict_get o (U "nutriscore_score") JNull);
          (c, U "allergens_tags", JList stripped);
          (truthy (dict_get o (U "ingredients_analysis_tags") (JList [])),
           U "ingredients_analysis_tags",
           dict_get o (U "ingredients_analysis_tags") (JList [])) ]).
  { destruct (truthy al) eqn:Hal.
    - destruct (py_iter al) as [items|]; [|discriminate].
      cbn [mbind result_bind] in Hr.
      destruct (mapM strip_allergen items) as [stripped|] eqn:Hmap;
        [|discriminate].
      cbn [mbind result_bind] in Hr. injection Hr as <-.
      exists true, stripped. split; [eauto|]. reflexivity.
    - cbn [mbind result_bind] in Hr. injection Hr as <-.
      exists false, []. split; reflexivity. }
  destruct Hshape as (c & stripped & Hal & ->).
  exists (opt c (U "allergens_tags") (JList stripped)).
  split; [reflexivity|]. split; [reflexivity|]. split.
  - destruct (truthy al).
    + destruct Hal as (items & Hit & Hmap & ->). exists items, stripped.
      repeat split; try assumption. now apply mapM_result_length in Hmap.
    + now subst c.
  - rewrite foldl_assign.
    + cbn [fmap list_fmap mjoin list_join app fst snd]. unfold field.
      now rewrite app_nil_r.
    + apply (bool_decide_unpack _). vm_compute. exact I.
    + apply Forall_forall. intros a _. reflexivity.
Qed.

End BuilderMore.

Lemma opt_keys_sublist (c : bool) (k : str) (v : json) :
  (opt c k v).*1 `sublist_of` [k].
Proof. destruct c; simpl; [reflexivity | apply sublist_nil_l]. Qed.

Ltac lookup_in_layout :=
  rewrite ?dict_lookup_app, ?dict_lookup_opt; eval_key_tests;
  cbv beta iota; cbn [dict_lookup];
  repeat match goal with
         | |- context [if ?c then Some ?v else None] => destruct c
         end; reflexivity.

Lemma parse_ingredients_returns (v : json) :
  (exists out, parse_ingredients v = Ok out) <->
  truthy v = false \/ is_str v = true.
Proof.
  unfold parse_ingredients. destruct (truthy v) eqn:Ht; cbn [negb].
  - destruct v; simpl; split; intros H; try (now right); try eauto;
      try (destruct H as [out H]; discriminate H);
      try (destruct H as [H|H]; discriminate H).
  - split; [now left | eauto].
Qed.

Lemma mapM_strip_allergen_fmap (tags : list str) :
  mapM strip_allergen (JStr <$> tags) =
  Ok (JStr <$> (str_replace (U "en:") [] <$> tags)).
Proof.
  induction tags as [|t tags IH]; [reflexivity|].
  rewrite !fmap_cons. cbn [mapM strip_allergen mbind result_bind].
  now rewrite IH.
Qed.

Section BuilderExtras.
Context {R : PyRuntime}.

Lemma classify_additives_returns (v : json) :
  (exists r, classify_additives v = Ok r) <-> strings_or_empty v.
Proof.
  unfold classify_additives, strings_or_empty.
  destruct (truthy v) eqn:Ht; cbn [negb].
  - destruct (py_iter v) as [items|e]; cbn [mbind result_bind].
    + destruct (forallb is_str items) eqn:Hall.
      * split; [intros _; right; eauto|]. intros _.
        destruct (all_str_fmap items Hall) as [tags ->].
        rewrite for_in_classify. eauto.
      * rewrite for_in_classify_not_str by assumption. split.
        -- intros [r Hr]. discriminate Hr.
        -- intros [Hf|(items' & [= <-] & Hs)]; congruence.
    + split.
      * intros [r Hr]. discriminate Hr.
      * intros [Hf|(items' & Hi & _)]; discriminate.
  - split; [now left | eauto].
Qed.

(** X5: the four fields passed through.  [product_name], [categories] and
    [ingredients_analysis_tags] keep their key, [image_url] is emitted as
    [image]; each is in the response exactly when the source value is
    non-empty, and then with that value. *)
Theorem build_product_response_passthrough (o response : dict) :
  build_product_response (JObj o) = Ok response ->
  dict_lookup (U "product_name") response =
    (if truthy (dict_get o (U "product_name") (JStr []))
     then Some (dict_get o (U "product_name") (JStr [])) else None) /\
  dict_lookup (U "image") response =
    (if truthy (dict_get o (U "image_url") (JStr []))
     then Some (dict_get o (U "image_url") (JStr [])) else None) /\
  dict_lookup (U "image_url") response = None /\
  dict_lookup (U "categories") response =
    (if truthy (dict_get o (U "categories") (JStr []))
     then Some (dict_get o (U "categories") (JStr [])) else None) /\
  dict_lookup (U "ingredients_analysis_tags") response =
    (if truthy (dict_get o (U "ingredients_analysis_tags") (JList []))
     then Some (dict_get o (U "ingredients_analysis_tags") (JList []))
     else None).
Proof.
  intros Hr.
  destruct (build_product_response_layout o response Hr)
    as (ing & a & p & al & _ & _ & Hal & ->).
  assert (Hal' : exists c v, al = opt c (U "allergens_tags") v).
  { destruct (truthy _).
    - destruct Hal as (items & stripped & _ & _ & _ & ->). eauto.
    - exists false, JNull. exact Hal. }
  destruct Hal' as (c & v & ->). clear Hal. unfold field.
  repeat split; lookup_in_layout.
Qed.

(** X6: the four fields computed.  [ingredients] is the parsed ingredients
    text, [additives] and [preservatives] are the two lists of the
    classifier, each emitted when it is not empty; a non-empty list of
    allergen strings is emitted with [en:] removed from each, in the same
    order and number. *)
Theorem build_product_response_computed (o response : dict) :
  build_product_response (JObj o) = Ok response ->
  exists ingredients additives preservatives,
    parse_ingredients (dict_get o (U "ingredients_text") (JStr [])) =
      Ok ingredients /\
    classify_additives (dict_get o (U "additives_tags") (JList [])) =
      Ok (additives, preservatives) /\
    dict_lookup (U "ingredients") response =
      (if bool_decide (ingredients = []) then None
       else Some (str_list ingredients)) /\
    dict_lookup (U "additives") response =
      (if bool_decide (additives = []) then None
       else Some (str_list additives)) /\
    dict_lookup (U "preservatives") response =
      (if bool_decide (preservatives = []) then None
       else Some (str_list preservatives)) /\
    (forall t tags,
       dict_get o (U "allergens_tags") (JList []) = JList (JStr <$> t :: tags) ->
       dict_lookup (U "allergens_tags") response =
         Some (str_list (str_replace (U "en:") [] <$> t :: tags))).
Proof.
  intros Hr.
  destruct (build_product_response_layout o response Hr)
    as (ing & a & p & al & Hing & Hcl & Hal & ->).
  exists ing, a, p. split; [assumption|]. split; [assumption|].
  assert (Hal' : exists c v, al = opt c (U "allergens_tags") v).
  { destruct (truthy _).
    - destruct Hal as (items & stripped & _ & _ & _ & ->). eauto.
    - exists false, JNull. exact Hal. }
  assert (Hempty : forall l : list str,
            truthy (str_list l) = negb (bool_decide (l = []))).
  { now intros [|x l]. }
  split; [|split; [|split]].
  - destruct Hal' as (c & v & ->). unfold field. rewrite !Hempty.
    rewrite ?dict_lookup_app, ?dict_lookup_opt; eval_key_tests;
      cbv beta iota; cbn [dict_lookup]. now destruct (bool_decide (ing = [])).
  - destruct Hal' as (c & v & ->). unfold field. rewrite !Hempty.
    rewrite ?dict_lookup_app, ?dict_lookup_opt; eval_key_tests;
      cbv beta iota; cbn [dict_lookup]. now destruct (bool_decide (a = [])).
  - destruct Hal' as (c & v & ->). unfold field. rewrite !Hempty.
    rewrite ?dict_lookup_app, ?dict_lookup_opt; eval_key_tests;
      cbv beta iota; cbn [dict_lookup]. now destruct (bool_decide (p = [])).
  - intros t tags Htags. clear Hal'. rewrite Htags in Hal.
    cbn [truthy fmap list_fmap] in Hal.
    destruct Hal as (items & stripped & [= <-] & Hmap & _ & ->).
    assert (Hm : Ok stripped =
                 Ok (JStr <$> (str_replace (U "en:") [] <$> t :: tags)))
      by (rewrite <- Hmap; apply (mapM_strip_allergen_fmap (t :: tags))).
    injection Hm as ->. unfold field.
    rewrite ?dict_lookup_app, ?dict_lookup_opt; eval_key_tests;
      cbv beta iota; cbn [dict_lookup]. reflexivity.
Qed.

(** X7: the keys of a response are among the nine the builder writes, each
    at most once and in the order of [response_keys]; no other key, such as
    [error], is ever one of them. *)
Theorem build_product_response_keys (o response : dict) :
  build_product_response (JObj o) = Ok response ->
  response.*1 `sublist_of` response_keys /\
  NoDup response.*1 /\
  dict_lookup (U "error") response = None.
Proof.
  intros Hr.
  destruct (build_product_response_layout o response Hr)
    as (ing & a & p & al & _ & _ & Hal & ->).
  assert (Hal' : exists c v, al = opt c (U "allergens_tags") v).
  { destruct (truthy _).
    - destruct Hal as (items & stripped & _ & _ & _ & ->). eauto.
    - exists false, JNull. exact Hal. }
  destruct Hal' as (c & v & ->). clear Hal. unfold field.
  assert (Hsub : (opt (truthy (dict_get o (U "product_name") (JStr [])))
                    (U "product_name") (dict_get o (U "product_name") (JStr [])) ++
                  opt (truthy (dict_get o (U "image_url") (JStr [])))
                    (U "image") (dict_get o (U "image_url") (JStr [])) ++
                  opt (truthy (str_list ing)) (U "ingredients") (str_list ing) ++
                  opt (truthy (str_list a)) (U "additives") (str_list a) ++
                  opt (truthy (str_list p)) (U "preservatives") (str_list p) ++
                  opt (truthy (dict_get o (U "categories") (JStr [])))
                    (U "categories") (dict_get o (U "categories") (JStr [])) ++
                  opt (negb (is_None (dict_get o (U "nutriscore_score") JNull)))
                    (U "nutriscore_score")
                    (dict_get o (U "nutriscore_score") JNull) ++
                  opt c (U "allergens_tags") v ++
                  opt (truthy (dict_get o (U "ingredients_analysis_tags") (JList [])))
                    (U "ingredients_analysis_tags")
                    (dict_get o (U "ingredients_analysis_tags") (JList []))).*1
                 `sublist_of` response_keys).
  { rewrite !fmap_app.
    change response_keys with
      ([U "product_name"] ++ [U "image"] ++ [U "ingredients"] ++
       [U "additives"] ++ [U "preservatives"] ++ [U "categories"] ++
       [U "nutriscore_score"] ++ [U "allergens_tags"] ++
       [U "ingredients_analysis_tags"]).
    repeat (apply sublist_app; [apply opt_keys_sublist|]).
    apply opt_keys_sublist. }
  split; [exact Hsub|]. split.
  - eapply sublist_NoDup; [|exact Hsub].
    apply (bool_decide_unpack _). vm_compute. exact I.
  - lookup_in_layout.
Qed.

(** X8: the response is a function of the eight keys the builder reads: two
    products that agree on them give the same response or the same
    exception. *)
Theorem build_product_response_reads (o o' : dict) :
  Forall (fun k => dict_lookup k o = dict_lookup k o') read_keys ->
  build_product_response (JObj o) = build_product_response (JObj o').
Proof.
  intros Hk. unfold read_keys in Hk.
  repeat match type of Hk with
         | Forall _ (_ :: _) =>
             let H := fresh "H" in apply Forall_cons in Hk as [H Hk]
         end.
  unfold build_product_response. cbn [py_get mbind result_bind].
  now repeat match goal with H : dict_lookup _ o = _ |- _ => rewrite H; clear H end.
Qed.

(** X9: on a mapping, [build_product_response] returns exactly when the
    ingredients text is empty or a string and the additive and allergen tags
    are empty or hold strings only; on anything but a mapping it raises
    [AttributeError]. *)
Theorem build_product_response_returns (o : dict) :
  ((exists response, build_product_response (JObj o) = Ok response) <->
   (truthy (dict_get o (U "ingredients_text") (JStr [])) = false \/
    is_str (dict_get o (U "ingredients_text") (JStr [])) = true) /\
   strings_or_empty (dict_get o (U "additives_tags") (JList [])) /\
   strings_or_empty (dict_get o (U "allergens_tags") (JList []))) /\
  (forall v, (forall o', v <> JObj o') ->
     build_product_response v = Raise AttributeError).
Proof.
  split.
  - split.
    + intros [response Hr].
      destruct (build_product_response_layout o response Hr)
        as (ing & a & p & al & Hing & Hcl & Hal & _).
      split; [apply parse_ingredients_returns; eauto|].
      split; [apply classify_additives_returns; eauto|].
      unfold strings_or_empty.
      destruct (truthy (dict_get o (U "allergens_tags") (JList [])));
        [right | now left].
      destruct Hal as (items & stripped & Hit & Hmap & _).
      exists items. split; [assumption|].
      destruct (forallb is_str items) eqn:Hall; [reflexivity|].
      rewrite mapM_strip_allergen_not_str in Hmap by assumption. discriminate.
    + intros (Hing & Hcl & Hal).
      apply parse_ingredients_returns in Hing as [ing Hing].
      apply classify_additives_returns in Hcl as [[a p] Hcl].
      unfold build_product_response. cbn [py_get mbind result_bind].
      unfold dict_get in *. rewrite Hing. cbn [mbind result_bind].
      rewrite Hcl. cbn [mbind result_bind].
      destruct Hal as [Hf|(items & Hit & Hall)].
      * rewrite Hf. cbn [mbind result_bind]. eauto.
      * destruct (truthy (default (JList []) (dict_lookup (U "allergens_tags") o)));
          [|cbn [mbind result_bind]; eauto].
        rewrite Hit. cbn [mbind result_bind].
        destruct (mapM_strip_allergen items Hall) as (tags & _ & ->).
        cbn [mbind result_bind]. eauto.
  - intros v Hv. destruct v; try reflexivity. now destruct (Hv o0).
Qed.

End BuilderExtras.

Lemma build_product_response_passthrough_witness :
  dict_lookup (U "image") [(U "image", JStr (U "http://x/y.jpg"))] =
    Some (JStr (U "http://x/y.jpg")) /\
  dict_lookup (U "image_url") [(U "image", JStr (U "http://x/y.jpg"))] = None.
Proof.
  destruct (@build_product_response_passthrough ascii_runtime
              [(U "image_url", JStr (U "http://x/y.jpg"))]
              [(U "image", JStr (U "http://x/y.jpg"))] eq_refl)
    as (_ & Himg & Hurl & _).
  split; [exact Himg | exact Hurl].
Defined.

Lemma build_product_response_computed_witness :
  exists ingredients additives preservatives,
    parse_ingredients (JStr (U "Sugar, Salt")) = Ok ingredients /\
    @classify_additives ascii_runtime (JList []) = Ok (additives, preservatives) /\
    dict_lookup (U "ingredients") [(U "ingredients", str_list [U "Sugar"; U "Salt"])] =
      (if bool_decide (ingredients = []) then None
       else Some (str_list ingredients)).
Proof.
  destruct (@build_product_response_computed ascii_runtime
              [(U "ingredients_text", JStr (U "Sugar, Salt"))]
              [(U "ingredients", str_list [U "Sugar"; U "Salt"])] eq_refl)
    as (ing & a & p & Hing & Hcl & Hi & _).
  exists ing, a, p. repeat split; assumption.
Defined.

Lemma build_product_response_keys_witness :
  [U "product_name"; U "nutriscore_score"] `sublist_of` response_keys.
Proof.
  exact (proj1 (@build_product_response_keys ascii_runtime
                  [(U "nutriscore_score", JInt 3); (U "product_name", JStr (U "Cola"))]
                  [(U "product_name", JStr (U "Cola")); (U "nutriscore_score", JInt 3)]
                  eq_refl)).
Defined.

Lemma build_product_response_reads_witness :
  @build_product_response ascii_runtime
    (JObj [(U "brands", JStr (U "Acme")); (U "product_name", JStr (U "Cola"))]) =
  @build_product_response ascii_runtime
    (JObj [(U "product_name", JStr (U "Cola")); (U "code", JStr (U "123"))]).
Proof.
  apply (@build_product_response_reads ascii_runtime). repeat constructor.
Defined.

(** ** The handlers, continued *)

Section HandlerExtras.
Context {R : PyRuntime}.
Variable API_KEY : str.

(** X10: the requests [scan_barcode] turns down before the format check.  An
    empty or missing body and a mapping without the key are answered 400
    "Missing 'barcode' field in request body"; a barcode that is empty once
    coerced and trimmed is answered 400 "Barcode cannot be empty"; no GET is
    issued. *)
Theorem scan_barcode_missing_or_empty (net : http_request -> get_outcome) :
  (forall data, truthy data = false ->
     run net (scan_barcode API_KEY data) =
       ([], Responded 400
              (error_body (U "Missing 'barcode' field in request body")))) /\
  (forall o, dict_lookup (U "barcode") o = None ->
     run net (scan_barcode API_KEY (JObj o)) =
       ([], Responded 400
              (error_body (U "Missing 'barcode' field in request body")))) /\
  (forall o v, dict_lookup (U "barcode") o = Some v ->
     strip (py_str v) = [] ->
     run net (scan_barcode API_KEY (JObj o)) =
       ([], Responded 400 (error_body (U "Barcode cannot be empty")))).
Proof.
  split; [|split].
  - intros data Hd. unfold scan_barcode. now rewrite Hd.
  - intros o Ho. unfold scan_barcode.
    destruct (truthy (JObj o)); [|reflexivity].
    cbn [negb py_contains or_escape]. rewrite Ho.
    rewrite bool_decide_eq_false_2; [reflexivity|]. now intros [x Hx].
  - intros o v Hv He. rewrite (scan_barcode_obj API_KEY o v Hv), He. reflexivity.
Qed.

(** X11: the requests [search_product] turns down.  An empty or missing body
    and a mapping without the key are answered 400 "Missing 'name' field in
    request body"; a name that is empty once coerced and trimmed is answered
    400 "Product name cannot be empty"; no GET is issued. *)
Theorem search_product_missing_or_empty (net : http_request -> get_outcome) :
  (forall data, truthy data = false ->
     run net (search_product data) =
       ([], Responded 400
              (error_body (U "Missing 'name' field in request body")))) /\
  (forall o, dict_lookup (U "name") o = None ->
     run net (search_product (JObj o)) =
       ([], Responded 400
              (error_body (U "Missing 'name' field in request body")))) /\
  (forall o v, dict_lookup (U "name") o = Some v ->
     strip (py_str v) = [] ->
     run net (search_product (JObj o)) =
       ([], Responded 400 (error_body (U "Product name cannot be empty")))).
Proof.
  split; [|split].
  - intros data Hd. unfold search_product. now rewrite Hd.
  - intros o Ho. unfold search_product.
    destruct (truthy (JObj o)); [|reflexivity].
    cbn [negb py_contains or_escape]. rewrite Ho.
    rewrite bool_decide_eq_false_2; [reflexivity|]. now intros [x Hx].
  - intros o v Hv He. unfold search_product.
    destruct o as [|kv o]; [discriminate|].
    cbn [truthy negb py_contains py_getitem or_escape].
    rewrite Hv. rewrite bool_decide_eq_true_2 by eauto.
    cbn [negb or_escape]. rewrite He. reflexivity.
Qed.

(** X12: a JSON body that is not a mapping.  When it is a list that holds
    the key as an element, or a string that holds it as a substring, the
    membership test passes and the subscript raises [TypeError]; when it is
    a non-zero number or [true], the membership test itself raises
    [TypeError].  Both handlers let the exception escape. *)
Theorem handlers_on_non_mapping_body (net : http_request -> get_outcome)
    (data : json) :
  (holds_key_outside_mapping data (U "barcode") = true ->
   run net (scan_barcode API_KEY data) = ([], Crashed TypeError)) /\
  (holds_key_outside_mapping data (U "name") = true ->
   run net (search_product data) = ([], Crashed TypeError)) /\
  (is_truthy_scalar data = true ->
   run net (scan_barcode API_KEY data) = ([], Crashed TypeError) /\
   run net (search_product data) = ([], Crashed TypeError)).
Proof.
  split; [|split].
  - intros Hk. unfold scan_barcode.
    destruct data as [| | | |s|l|o]; try discriminate Hk.
    + destruct s as [|c s]; [discriminate Hk|].
      cbn [truthy negb py_contains or_escape holds_key_outside_mapping] in *.
      rewrite bool_decide_eq_false_2 by discriminate.
      cbn [negb]. rewrite Hk. reflexivity.
    + destruct l as [|x l]; [discriminate Hk|].
      cbn [truthy negb py_contains or_escape holds_key_outside_mapping] in *.
      rewrite Hk. reflexivity.
  - intros Hk. unfold search_product.
    destruct data as [| | | |s|l|o]; try discriminate Hk.
    + destruct s as [|c s]; [discriminate Hk|].
      cbn [truthy negb py_contains or_escape holds_key_outside_mapping] in *.
      rewrite bool_decide_eq_false_2 by discriminate.
      cbn [negb]. rewrite Hk. reflexivity.
    + destruct l as [|x l]; [discriminate Hk|].
      cbn [truthy negb py_contains or_escape holds_key_outside_mapping] in *.
      rewrite Hk. reflexivity.
  - intros Hs. split.
    + unfold scan_barcode.
      destruct data; try discriminate Hs; cbn [is_truthy_scalar] in Hs;
        rewrite Hs; reflexivity.
    + unfold search_product.
      destruct data; try discriminate Hs; cbn [is_truthy_scalar] in Hs;
        rewrite Hs; reflexivity.
Qed.

End HandlerExtras.

Lemma scan_barcode_missing_or_empty_witness :
  run (fun _ => GetRaises Timeout [])
      (@scan_barcode ascii_runtime [] (JObj [(U "barcode", JStr (U "   "))])) =
  ([], Responded 400 (error_body (U "Barcode cannot be empty"))).
Proof.
  apply (proj2 (proj2 (@scan_barcode_missing_or_empty ascii_runtime []
                         (fun _ => GetRaises Timeout [])))
           [(U "barcode", JStr (U "   "))] (JStr (U "   ")));
    reflexivity.
Defined.

Lemma search_product_missing_or_empty_witness :
  run (fun _ => GetRaises Timeout [])
      (@search_product ascii_runtime (JObj [(U "nom", JStr (U "cola"))])) =
  ([], Responded 400 (error_body (U "Missing 'name' field in request body"))).
Proof.
  apply (proj1 (proj2 (@search_product_missing_or_empty ascii_runtime
                         (fun _ => GetRaises Timeout [])))
           [(U "nom", JStr (U "cola"))]);
    reflexivity.
Defined.

Lemma handlers_on_non_mapping_body_witness :
  run (fun _ => GetRaises Timeout [])
      (@scan_barcode ascii_runtime [] (JList [JStr (U "barcode")])) =
    ([], Crashed TypeError) /\
  run (fun _ => GetRaises Timeout [])
      (@search_product ascii_runtime (JStr (U "my name"))) =
    ([], Crashed TypeError).
Proof.
  split.
  - apply (proj1 (@handlers_on_non_mapping_body ascii_runtime []
                    (fun _ => GetRaises Timeout []) (JList [JStr (U "barcode")]))).
    reflexivity.
  - apply (proj1 (proj2 (@handlers_on_non_mapping_body ascii_runtime []
                    (fun _ => GetRaises Timeout []) (JStr (U "my name"))))).
    reflexivity.
Defined.

Lemma well_formed_error (codes : list Z) (status : Z) (msg : str) :
  status ∈ codes -> status <> 200%Z ->
  well_formed codes (Responded status (error_body msg)).
Proof. intros Hin Hne. split; [assumption|]. right. eauto. Qed.

Section HandlerShapes.
Context {R : PyRuntime}.
Variable API_KEY : str.

Lemma build_product_response_empty : build_product_response (JObj []) = Ok [].
Proof.
  rewrite build_product_response_ascii by (vm_compute; reflexivity).
  vm_compute. reflexivity.
Qed.

Lemma build_product_response_no_error (v : json) (response : dict) :
  build_product_response v = Ok response ->
  dict_lookup (U "error") response = None.
Proof.
  destruct v as [| | | | | |o]; try discriminate. intros Hr.
  destruct (build_product_response_layout o response Hr)
    as (ing & a & p & al & _ & _ & Hal & ->).
  assert (Hal' : exists c v, al = opt c (U "allergens_tags") v).
  { destruct (truthy _).
    - destruct Hal as (items & stripped & _ & _ & _ & ->). eauto.
    - exists false, JNull. exact Hal. }
  destruct Hal' as (c & v & ->). unfold field. lookup_in_layout.
Qed.

(** How [scan_barcode] ends or goes on. *)
Lemma scan_barcode_cases (data : json) :
  (exists msg, scan_barcode API_KEY data = Respond 400 (error_body msg)) \/
  (exists e, scan_barcode API_KEY data = Unhandled e) \/
  (exists v,
     unicode_barcode (strip (py_str v)) = true /\
     scan_barcode API_KEY data =
       HttpGet (scan_barcode_request API_KEY (strip (py_str v)))
               scan_barcode_after).
Proof.
  unfold scan_barcode.
  destruct (negb (truthy data)); [left; eauto|].
  destruct (py_contains data (U "barcode")) as [[|]|e];
    cbn [or_escape negb]; [|left; eauto|right; left; eauto].
  destruct (py_getitem data (U "barcode")) as [v|e];
    cbn [or_escape]; [|right; left; eauto].
  destruct (negb (truthy (JStr (strip (py_str v))))); [left; eauto|].
  destruct (barcode_re_match (strip (py_str v))) eqn:Hm;
    cbn [negb]; [|left; eauto].
  right. right. exists v. split; [|reflexivity].
  now rewrite <- barcode_re_match_strip.
Qed.

(** How [search_product] ends or goes on. *)
Lemma search_product_cases (data : json) :
  (exists msg, search_product data = Respond 400 (error_body msg)) \/
  (exists e, search_product data = Unhandled e) \/
  (exists v,
     strip (py_str v) <> [] /\
     search_product data =
       HttpGet (search_product_request (strip (py_str v))) search_product_after).
Proof.
  unfold search_product.
  destruct (negb (truthy data)); [left; eauto|].
  destruct (py_contains data (U "name")) as [[|]|e];
    cbn [or_escape negb]; [|left; eauto|right; left; eauto].
  destruct (py_getitem data (U "name")) as [v|e];
    cbn [or_escape]; [|right; left; eauto].
  cbn [truthy]. case_bool_decide as Hn; cbn [negb]; [left; eauto|].
  right. right. eauto.
Qed.

Lemma run_search_product_inv (net : http_request -> get_outcome) (data : json)
    (rq : http_request) (calls : list http_request) (fin : final) :
  run net (search_product data) = (rq :: calls, fin) ->
  calls = [] /\ answer (search_product_after (net rq)) = Some fin.
Proof.
  intros Hrun.
  destruct (search_product_cases data) as [[msg Hd]|[[e Hd]|(v & _ & Hd)]];
    rewrite Hd in Hrun; try discriminate Hrun.
  destruct (run_search_get net (strip (py_str v))) as (fin' & Hf & Hr).
  rewrite Hr in Hrun. now injection Hrun as <- <- <-.
Qed.

(** X13: upstream found the product.  When the reply carries no HTTP error
    status and its envelope has [status] 1, the answer is 200 with the
    response built from the envelope's [product], 404 "Product found but
    contains no usable data" when that response is empty (as it is when
    [product] is missing), and the exception of the builder when it raises. *)
Theorem scan_barcode_found (net : http_request -> get_outcome) (data : json)
    (rq : http_request) (calls : list http_request) (fin : final)
    (resp : http_response) (env : dict) :
  run net (scan_barcode API_KEY data) = (rq :: calls, fin) ->
  net rq = GetReturns resp ->
  raise_for_status resp = None ->
  json_body resp = Some (JObj env) ->
  py_eq_int (dict_get env (U "status") JNull) 1 = true ->
  fin = match build_product_response (dict_get env (U "product") (JObj [])) with
        | Ok [] =>
            Responded 404
              (error_body (U "Product found but contains no usable data"))
        | Ok (entry :: result) => Responded 200 (JObj (entry :: result))
        | Raise e => Crashed e
        end /\
  (dict_lookup (U "product") env = None ->
   fin = Responded 404
           (error_body (U "Product found but contains no usable data"))).
Proof.
  intros Hrun Hnet Hs Hb He. apply run_scan_barcode_inv in Hrun as [-> Hf].
  rewrite Hnet in Hf. unfold scan_barcode_after, try_get in Hf. rewrite Hs in Hf.
  unfold scan_barcode_parse, resp_json in Hf. rewrite Hb in Hf.
  cbn [or_escape py_get] in Hf. unfold dict_get in *. rewrite He in Hf.
  cbn [negb] in Hf.
  assert (Hfin : fin =
    match build_product_response (default (JObj []) (dict_lookup (U "product") env)) with
    | Ok [] =>
        Responded 404
          (error_body (U "Product found but contains no usable data"))
    | Ok (entry :: result) => Responded 200 (JObj (entry :: result))
    | Raise e => Crashed e
    end).
  { destruct (build_product_response _) as [[|entry result]|e];
      simpl in Hf; now injection Hf as <-. }
  split; [exact Hfin|]. intros Hp. rewrite Hp in Hfin. cbn [default from_option id] in Hfin.
  now rewrite build_product_response_empty in Hfin.
Qed.

(** X14: each handler issues at most one GET.  The barcode in the path of
    the GET of [scan_barcode] is 4 to 14 decimal digits and nothing else; the
    name [search_product] sends is trimmed and not empty. *)
Theorem handlers_one_get (net : http_request -> get_outcome) (data : json) :
  ((run net (scan_barcode API_KEY data)).1 = [] \/
   exists barcode,
     unicode_barcode barcode = true /\
     (run net (scan_barcode API_KEY data)).1 =
       [ {| rq_url := U "https://world.openfoodfacts.org/api/v0/product/"
                      ++ barcode ++ U ".json";
            rq_params := [];
            rq_headers := if bool_decide (API_KEY = []) then []
                          else [(U "Authorization", U "Bearer " ++ API_KEY)];
            rq_timeout := 10 |} ]) /\
  ((run net (search_product data)).1 = [] \/
   exists name,
     name <> [] /\ strip name = name /\
     (run net (search_product data)).1 =
       [ {| rq_url := U "https://world.openfoodfacts.org/cgi/search.pl";
            rq_params := [ (U "search_terms", JStr name);
                           (U "search_simple", JInt 1);
                           (U "json", JInt 1);
                           (U "page_size", JInt 1) ];
            rq_headers := [];
            rq_timeout := 10 |} ]).
Proof.
  split.
  - destruct (scan_barcode_cases data) as [[msg ->]|[[e ->]|(v & Hv & ->)]];
      [now left..|].
    right. exists (strip (py_str v)). split; [assumption|].
    destruct (run_scan_get API_KEY net (strip (py_str v))) as (fin & _ & ->).
    cbn [fst]. unfold scan_barcode_request. cbn [truthy].
    now destruct (bool_decide (API_KEY = [])).
  - destruct (search_product_cases data) as [[msg ->]|[[e ->]|(v & Hv & ->)]];
      [now left..|].
    right. exists (strip (py_str v)). split; [assumption|].
    split; [apply strip_idem|].
    destruct (run_search_get net (strip (py_str v))) as (fin & _ & ->).
    reflexivity.
Qed.

(** X15: [search_product] answers every failure of its GET alike: a timeout,
    a connection failure, any other [RequestException] and an HTTP error
    status all give 500 "Search API failed: ..." with the text of the
    exception. *)
Theorem search_product_failures (net : http_request -> get_outcome)
    (data : json) (rq : http_request) (calls : list http_request) (fin : final) :
  run net (search_product data) = (rq :: calls, fin) ->
  (forall c msg, net rq = GetRaises c msg ->
     fin = Responded 500 (error_body (U "Search API failed: " ++ msg))) /\
  (forall resp, net rq = GetReturns resp ->
     (400 <= status_code resp < 600)%Z ->
     fin = Responded 500
             (error_body (U "Search API failed: " ++ error_text resp))).
Proof.
  intros Hrun. apply run_search_product_inv in Hrun as [-> Hf]. split.
  - intros c msg Hnet. rewrite Hnet in Hf. simpl in Hf. now injection Hf as <-.
  - intros resp Hnet [Hlo Hhi]. rewrite Hnet in Hf.
    unfold search_product_after, try_get, raise_for_status in Hf.
    apply Z.leb_le in Hlo. apply Z.ltb_lt in Hhi. rewrite Hlo, Hhi in Hf.
    simpl in Hf. now injection Hf as <-.
Qed.

(** X17: a reply that is not what the handlers expect.  When it carries no
    HTTP error status, a body that is not JSON makes [resp.json()] raise, and
    a JSON body that is not a mapping makes [.get] raise [AttributeError];
    both handlers read the reply outside their [try] and let the exception
    escape. *)
Theorem handlers_on_malformed_reply (net : http_request -> get_outcome)
    (data : json) (rq : http_request) (calls : list http_request)
    (fin : final) (resp : http_response) :
  run net (scan_barcode API_KEY data) = (rq :: calls, fin) \/
  run net (search_product data) = (rq :: calls, fin) ->
  net rq = GetReturns resp ->
  raise_for_status resp = None ->
  (json_body resp = None -> fin = Crashed JSONDecodeError) /\
  (forall body, json_body resp = Some body -> (forall o, body <> JObj o) ->
     fin = Crashed AttributeError).
Proof.
  intros Hrun Hnet Hs.
  assert (Hf : answer (scan_barcode_parse resp) = Some fin \/
               answer (search_product_parse resp) = Some fin).
  { destruct Hrun as [Hrun|Hrun].
    - left. apply run_scan_barcode_inv in Hrun as [_ Hf].
      rewrite Hnet in Hf. unfold scan_barcode_after, try_get in Hf.
      now rewrite Hs in Hf.
    - right. apply run_search_product_inv in Hrun as [_ Hf].
      rewrite Hnet in Hf. unfold search_product_after, try_get in Hf.
      now rewrite Hs in Hf. }
  unfold scan_barcode_parse, search_product_parse, resp_json in Hf. split.
  - intros Hb. rewrite Hb in Hf. simpl in Hf. now destruct Hf as [[= <-]|[= <-]].
  - intros body Hb Hno. rewrite Hb in Hf. cbn [or_escape] in Hf.
    destruct body; try (simpl in Hf; now destruct Hf as [[= <-]|[= <-]]).
    now destruct (Hno o).
Qed.

End HandlerShapes.

Section HandlerAnswers.
Context {R : PyRuntime}.
Variable API_KEY : str.

Lemma scan_barcode_after_well_formed (out : get_outcome) :
  exists f, answer (scan_barcode_after out) = Some f /\
            well_formed [200; 400; 404; 500; 502; 504]%Z f.
Proof.
  unfold scan_barcode_after, scan_barcode_except, scan_barcode_parse.
  destruct (try_get out) as [[c msg]|resp].
  - destruct (is_Timeout c); [|destruct (is_ConnectionError c)];
      eexists; (split; [reflexivity|]); apply well_formed_error;
      (set_solver || discriminate).
  - destruct (resp_json resp) as [api_data|]; [|now (simpl; eexists; split; [reflexivity | exact I])].
    cbn [or_escape].
    destruct (py_get api_data (U "status") JNull) as [status|]; [|now (simpl; eexists; split; [reflexivity | exact I])].
    cbn [or_escape]. destruct (negb (py_eq_int status 1)).
    { eexists; split; [reflexivity|].
      apply well_formed_error; (set_solver || discriminate). }
    destruct (py_get api_data (U "product") (JObj [])) as [product|];
      [|now (simpl; eexists; split; [reflexivity | exact I])].
    cbn [or_escape].
    destruct (build_product_response product) as [result|] eqn:Hb;
      [|now (simpl; eexists; split; [reflexivity | exact I])].
    cbn [or_escape]. destruct (negb (truthy (JObj result))).
    { eexists; split; [reflexivity|].
      apply well_formed_error; (set_solver || discriminate). }
    eexists; split; [reflexivity|]. split; [set_solver|]. left.
    split; [reflexivity|]. exists result. split; [reflexivity|].
    exact (build_product_response_no_error _ _ Hb).
Qed.

Lemma search_product_after_well_formed (out : get_outcome) :
  exists f, answer (search_product_after out) = Some f /\
            well_formed [200; 400; 404; 500]%Z f.
Proof.
  unfold search_product_after, search_product_parse.
  destruct (try_get out) as [[c msg]|resp].
  - eexists; split; [reflexivity|].
    apply well_formed_error; (set_solver || discriminate).
  - destruct (resp_json resp) as [search_data|]; [|now (simpl; eexists; split; [reflexivity | exact I])].
    cbn [or_escape].
    destruct (py_get search_data (U "products") (JList [])) as [products|];
      [|now (simpl; eexists; split; [reflexivity | exact I])].
    cbn [or_escape]. destruct (negb (truthy products)).
    { eexists; split; [reflexivity|].
      apply well_formed_error; (set_solver || discriminate). }
    destruct (py_first products) as [first|]; [|now (simpl; eexists; split; [reflexivity | exact I])].
    cbn [or_escape].
    destruct (build_product_response first) as [result|] eqn:Hb;
      [|now (simpl; eexists; split; [reflexivity | exact I])].
    cbn [or_escape].
    eexists; split; [reflexivity|]. split; [set_solver|]. left.
    split; [reflexivity|]. exists result. split; [reflexivity|].
    exact (build_product_response_no_error _ _ Hb).
Qed.

(** X16: whatever the request and whatever upstream does, a handler that
    answers does so with one of its status codes, 200, 400, 404, 500, 502 or
    504 for [scan_barcode] and 200, 400, 404 or 500 for [search_product]; a
    200 carries a mapping without an [error] key and every other status
    carries [{"error": message}]. *)
Theorem handlers_answers_well_formed (net : http_request -> get_outcome)
    (data : json) :
  well_formed [200; 400; 404; 500; 502; 504]%Z
    (run net (scan_barcode API_KEY data)).2 /\
  well_formed [200; 400; 404; 500]%Z (run net (search_product data)).2.
Proof.
  split.
  - destruct (scan_barcode_cases API_KEY data)
      as [[msg ->]|[[e ->]|(v & _ & ->)]].
    + apply well_formed_error; (set_solver || discriminate).
    + exact I.
    + destruct (scan_barcode_after_well_formed
                  (net (scan_barcode_request API_KEY (strip (py_str v)))))
        as (f & Hf & Hwf).
      simpl. now rewrite (run_answer _ _ _ Hf).
  - destruct (search_product_cases data) as [[msg ->]|[[e ->]|(v & _ & ->)]].
    + apply well_formed_error; (set_solver || discriminate).
    + exact I.
    + destruct (search_product_after_well_formed
                  (net (search_product_request (strip (py_str v)))))
        as (f & Hf & Hwf).
      simpl. now rewrite (run_answer _ _ _ Hf).
Qed.

(** X18: what [search_product] makes of [products] when it is not a list of
    mappings.  Any empty or null value is "not found"; a non-empty mapping
    has no key 0 and raises [KeyError]; a number or [true] cannot be
    subscripted and raises [TypeError]; a non-empty string, or a list whose
    first element is not a mapping, reaches the builder, whose [.get]
    raises [AttributeError]. *)
Theorem search_product_odd_products (net : http_request -> get_outcome)
    (data : json) (rq : http_request) (calls : list http_request)
    (fin : final) (resp : http_response) (sd : dict) (products : json) :
  run net (search_product data) = (rq :: calls, fin) ->
  net rq = GetReturns resp ->
  raise_for_status resp = None ->
  json_body resp = Some (JObj sd) ->
  dict_lookup (U "products") sd = Some products ->
  (truthy products = false ->
     fin = Responded 404 (error_body (U "Product not found"))) /\
  (truthy products = true ->
     fin = match products with
           | JObj _ => Crashed KeyError
           | JBool _ | JInt _ | JFloat _ => Crashed TypeError
           | JStr _ => Crashed AttributeError
           | JList (JObj first :: _) =>
               match build_product_response (JObj first) with
               | Ok result => Responded 200 (JObj result)
               | Raise e => Crashed e
               end
           | _ => Crashed AttributeError
           end).
Proof.
  intros Hrun Hnet Hs Hb Hp. apply run_search_product_inv in Hrun as [-> Hf].
  rewrite Hnet in Hf. rewrite (search_product_after_json resp sd Hs Hb) in Hf.
  rewrite Hp in Hf. cbn [default from_option id] in Hf. split; intros Ht.
  - rewrite Ht in Hf. simpl in Hf. now injection Hf as <-.
  - rewrite Ht in Hf. cbn [negb] in Hf.
    destruct products as [| | | |[|c s]|[|first rest]|[|kv o]];
      try discriminate Ht;
      try (simpl in Hf; now injection Hf as <-).
    cbn [py_first or_escape] in Hf.
    destruct first; try (simpl in Hf; now injection Hf as <-).
    destruct (build_product_response (JObj o)); simpl in Hf;
      now injection Hf as <-.
Qed.

End HandlerAnswers.

Lemma scan_barcode_found_witness :
  (run (fun _ => GetReturns
                   {| status_code := 200; error_text := [];
                      json_body :=
                        Some (JObj [(U "status", JInt 1);
                                    (U "product",
                                     JObj [(U "product_name", JStr (U "Cola"))])]) |})
       (@scan_barcode ascii_runtime []
          (JObj [(U "barcode", JStr (U "5449000000996"))]))).2 =
  Responded 200 (JObj [(U "product_name", JStr (U "Cola"))]).
Proof.
  refine (proj1 (@scan_barcode_found ascii_runtime []
                   (fun _ => GetReturns
                      {| status_code := 200; error_text := [];
                         json_body :=
                           Some (JObj [(U "status", JInt 1);
                                       (U "product",
                                        JObj [(U "product_name", JStr (U "Cola"))])]) |})
                   (JObj [(U "barcode", JStr (U "5449000000996"))])
                   (scan_barcode_request [] (U "5449000000996")) []
                   _ _ [(U "status", JInt 1);
                        (U "product", JObj [(U "product_name", JStr (U "Cola"))])]
                   _ _ _ _ _)).
  - vm_compute. reflexivity.
  - reflexivity.
  - reflexivity.
  - reflexivity.
  - reflexivity.
Defined.

Lemma search_product_failures_witness :
  (run (fun _ => GetRaises ReadTimeout (U "Read timed out."))
       (@search_product ascii_runtime (JObj [(U "name", JStr (U "cola"))]))).2 =
  Responded 500 (error_body (U "Search API failed: Read timed out.")).
Proof.
  refine (proj1 (@search_product_failures ascii_runtime
                   (fun _ => GetRaises ReadTimeout (U "Read timed out."))
                   (JObj [(U "name", JStr (U "cola"))])
                   (search_product_request (U "cola")) [] _ _)
            ReadTimeout (U "Read timed out.") _).
  - vm_compute. reflexivity.
  - reflexivity.
Defined.

Lemma handlers_on_malformed_reply_witness :
  (run (fun _ => GetReturns
                   {| status_code := 200; error_text := []; json_body := None |})
       (@search_product ascii_runtime (JObj [(U "name", JStr (U "cola"))]))).2 =
  Crashed JSONDecodeError.
Proof.
  refine (proj1 (@handlers_on_malformed_reply ascii_runtime []
                   (fun _ => GetReturns
                      {| status_code := 200; error_text := [];
                         json_body := None |})
                   (JObj [(U "name", JStr (U "cola"))])
                   (search_product_request (U "cola")) [] _ _ _ _ _) _).
  - right. vm_compute. reflexivity.
  - reflexivity.
  - reflexivity.
  - reflexivity.
Defined.

Lemma search_product_odd_products_witness :
  (run (fun _ => GetReturns
                   {| status_code := 200; error_text := [];
                      json_body :=
                        Some (JObj [(U "products",
                                     JObj [(U "0", JObj [])])]) |})
       (@search_product ascii_runtime (JObj [(U "name", JStr (U "cola"))]))).2 =
  Crashed KeyError.
Proof.
  refine (proj2 (@search_product_odd_products ascii_runtime
                   (fun _ => GetReturns
                      {| status_code := 200; error_text := [];
                         json_body :=
                           Some (JObj [(U "products",
                                        JObj [(U "0", JObj [])])]) |})
                   (JObj [(U "name", JStr (U "cola"))])
                   (search_product_request (U "cola")) [] _ _
                   [(U "products", JObj [(U "0", JObj [])])]
                   (JObj [(U "0", JObj [])]) _ _ _ _ _) _).
  - vm_compute. reflexivity.
  - reflexivity.
  - reflexivity.
  - reflexivity.
  - reflexivity.
  - reflexivity.
Defined.

(** ** The ingredient parser: when nothing is left *)

Lemma strip_nil_iff (p : str) : strip p = [] <-> forallb is_space p = true.
Proof.
  split.
  - intros Hp. destruct (strip_spec p) as (a & b & Heq & Ha & Hb & _).
    rewrite Hp in Heq. rewrite Heq, forallb_app, Ha. exact Hb.
  - intros Hp. unfold strip.
    rewrite <- (app_nil_r p), lstrip_spaces by assumption. reflexivity.
Qed.

Lemma filter_strip_nil (parts : list str) :
  filter (fun item => strip item <> []) parts = [] <->
  Forall (fun p => forallb is_space p = true) parts.
Proof.
  induction parts as [|p parts IH].
  - split; [constructor | reflexivity].
  - destruct (decide (strip p = [])) as [Hp|Hp].
    + rewrite filter_cons_False by (intros H; now apply H).
      rewrite IH. split.
      * intros Hall. constructor; [now apply strip_nil_iff | assumption].
      * now intros [_ Hall]%Forall_cons.
    + rewrite filter_cons_True by assumption. split; [discriminate|].
      intros [Hs _]%Forall_cons. now apply strip_nil_iff in Hs.
Qed.

Lemma re_split_blank (s : str) :
  Forall (fun p => forallb is_space p = true)
         (re_split is_ingredient_separator s) <->
  Forall (fun c => is_ingredient_separator c = true \/ is_space c = true) s.
Proof.
  induction s as [|c s IH]; simpl.
  - split; repeat constructor.
  - destruct (is_ingredient_separator c) eqn:Hc.
    + split.
      * intros [_ Hall]%Forall_cons. constructor; [now left | now apply IH].
      * intros [_ Hall]%Forall_cons. constructor; [reflexivity | now apply IH].
    + destruct (re_split is_ingredient_separator s) as [|q qs] eqn:Hq.
      { now destruct (re_split_not_nil is_ingredient_separator s). }
      split.
      * intros [Hcq Hall]%Forall_cons. simpl in Hcq.
        apply andb_true_iff in Hcq as [Hsp Hq'].
        constructor; [now right|]. apply IH. now constructor.
      * intros [[Hsep|Hsp] Hall]%Forall_cons; [congruence|].
        apply IH in Hall. apply Forall_cons in Hall as [Hq' Hall].
        constructor; [|assumption]. simpl. now rewrite Hsp.
Qed.

(** X19: [parse_ingredients] returns the empty list exactly for the texts
    made of separators and white space only, the empty text among them. *)
Theorem parse_ingredients_nothing_iff (s : str) :
  parse_ingredients (JStr s) = Ok [] <->
  Forall (fun c => is_ingredient_separator c = true \/ is_space c = true) s.
Proof.
  rewrite parse_ingredients_str, <- re_split_blank, <- filter_strip_nil.
  split.
  - intros [= Hf]. now apply fmap_nil_inv in Hf.
  - now intros ->.
Qed.
